(** * netlib.http.message: the lazy content / text transcoding cache

    A shallow embedding of [netlib/http/message.py]: the [CachedDecode]
    cell, the [Message] facade with its two caches, and the operations
    [get_content], [set_content], [get_text], [set_text], [decode],
    [encode] and [replace].

    Python objects are mutated in place and exceptions leave the mutations
    made so far in place.  Every method is therefore a function from the
    message state to an outcome (a value or a raised exception) paired with
    the state the call leaves behind. *)

From Stdlib Require Import List String Ascii NArith Bool Arith Lia DecimalString.
From Stdlib.Strings Require Import Byte.
Import ListNotations.
Open Scope string_scope.

Set Implicit Arguments.

(** ** Values *)

(** Python [bytes]. *)
Definition bytes := list byte.

(** Python text ([six.text_type]): a sequence of code points. *)
Definition text := list N.

(** The two kinds of value a caller may hand to a setter or to [replace]. *)
Inductive pyobj : Type :=
| PyBytes (b : bytes)
| PyStr (t : text).

(** The [b"..."] literals of the examples. *)
Definition b (s : string) : bytes := list_byte_of_string s.

(** ** Python equality [==] on the value types that the caches compare *)

Class EqDec (A : Type) := eq_dec : forall x y : A, {x = y} + {x <> y}.

#[global] Instance byte_EqDec : EqDec byte := byte_eq_dec.
#[global] Instance N_EqDec : EqDec N := N.eq_dec.
#[global] Instance string_EqDec : EqDec string := string_dec.
#[global] Instance bool_EqDec : EqDec bool := bool_dec.

#[global] Instance list_EqDec {A} `{EqDec A} : EqDec (list A).
Proof. intros x y. apply list_eq_dec. exact eq_dec. Defined.

#[global] Instance option_EqDec {A} `{EqDec A} : EqDec (option A).
Proof.
  intros [x|] [y|].
  - destruct (eq_dec x y); [left; congruence | right; congruence].
  - right; discriminate.
  - right; discriminate.
  - left; reflexivity.
Defined.

Definition py_eq {A} `{EqDec A} (x y : A) : bool :=
  if eq_dec x y then true else false.

Notation "x == y" := (py_eq x y) (at level 70, no associativity).

(** Truth value of an optional string ([if ce:]): [None] and the empty
    string are false. *)
Definition truthy_str (s : option string) : bool :=
  match s with
  | Some EmptyString => false
  | Some _ => true
  | None => false
  end.

(** Truth value of an optional flag: [None] and [False] are false. *)
Definition truthy_flag (f : option bool) : bool :=
  match f with
  | Some true => true
  | _ => false
  end.

(** Truth value of an optional byte string ([if self.content:]). *)
Definition truthy_bytes (c : option bytes) : bool :=
  match c with
  | Some (_ :: _) => true
  | _ => false
  end.

(** [str(n)] for a length. *)
Definition str_of_nat (n : nat) : string :=
  NilZero.string_of_uint (Nat.to_uint n).

(** ** Exceptions and outcomes *)

Inductive exn : Type :=
| ValueError
| TypeError
| KeyError
| AttributeError
| ReError.

Inductive result (A : Type) : Type :=
| Ok (a : A)
| Raise (e : exn).

Arguments Ok {A} a.
Arguments Raise {A} e.

(** ** ASCII helpers used by the header container *)

Definition lower_ascii (c : ascii) : ascii :=
  let n := nat_of_ascii c in
  if (65 <=? n)%nat && (n <=? 90)%nat then ascii_of_nat (n + 32) else c.

Fixpoint lower (s : string) : string :=
  match s with
  | EmptyString => EmptyString
  | String c rest => String (lower_ascii c) (lower rest)
  end.

(** [needle in hay] on strings. *)
Fixpoint str_in (needle hay : string) : bool :=
  if String.prefix needle hay then true
  else match hay with
       | EmptyString => false
       | String _ rest => str_in needle rest
       end.

(** [", ".join(values)]. *)
Fixpoint join_comma (vs : list string) : string :=
  match vs with
  | [] => ""
  | [v] => v
  | v :: rest => v ++ ", " ++ join_comma rest
  end.

(** [line.split(b": ", 1)] unpacked into two parts: [None] when the
    separator does not occur (the unpacking raises [ValueError]). *)
Fixpoint split_colon (line : bytes) : option (bytes * bytes) :=
  match line with
  | [] => None
  | c :: rest =>
    match c, rest with
    | x3a, x20 :: value => Some ([], value)
    | _, _ =>
      match split_colon rest with
      | Some (name, value) => Some (c :: name, value)
      | None => None
      end
    end
  end.

(** ** The header container

    Modelled from the spec: the Header Port ([netlib.http.headers.Headers]
    is not among the sources).  A case-insensitive ordered multi-map with
    get / set / delete / pop-with-default / membership, kept as the ordered
    list of its (name, value) fields. *)

Definition Headers := list (string * string).

Definition same_name (name : string) (field : string * string) : bool :=
  lower (fst field) == lower name.

Definition headers_get_all (name : string) (h : Headers) : list string :=
  map snd (filter (same_name name) h).

(** [name in headers]. *)
Definition headers_contains (name : string) (h : Headers) : bool :=
  existsb (same_name name) h.

(** [headers.get(name)]: [None] when absent; several values of one name
    are folded into one. *)
Definition headers_get (name : string) (h : Headers) : option string :=
  match headers_get_all name h with
  | [] => None
  | vs => Some (join_comma vs)
  end.

(** [headers.get(name, "")]. *)
Definition headers_get_default (name : string) (h : Headers) : string :=
  match headers_get name h with
  | Some v => v
  | None => ""
  end.

(** The first field of that name takes the new value, later ones go. *)
Fixpoint headers_replace_first (name value : string) (h : Headers) : Headers :=
  match h with
  | [] => []
  | f :: rest =>
    if same_name name f
    then (fst f, value) :: filter (fun g => negb (same_name name g)) rest
    else f :: headers_replace_first name value rest
  end.

(** [headers[name] = value]. *)
Definition headers_setitem (name value : string) (h : Headers) : Headers :=
  if headers_contains name h
  then headers_replace_first name value h
  else (h ++ [(name, value)])%list.

(** [del headers[name]]: [None] stands for the [KeyError] of an absent name. *)
Definition headers_delitem (name : string) (h : Headers) : option Headers :=
  if headers_contains name h
  then Some (filter (fun g => negb (same_name name g)) h)
  else None.

(** [headers.pop(name, None)], the popped value dropped as the caller does. *)
Definition headers_pop (name : string) (h : Headers) : Headers :=
  match headers_delitem name h with
  | Some h' => h'
  | None => h
  end.

(** ** The external collaborators *)

(** Parameters of a content type: a Python dict, insertion-ordered. *)
Definition params := list (string * string).

Fixpoint params_get (k : string) (p : params) : option string :=
  match p with
  | [] => None
  | (k', v) :: rest => if k' == k then Some v else params_get k rest
  end.

(** [d[k] = v]. *)
Fixpoint params_set (k v : string) (p : params) : params :=
  match p with
  | [] => [(k, v)]
  | (k', v') :: rest =>
    if k' == k then (k', v) :: rest else (k', v') :: params_set k v rest
  end.

(** The functions [message.py] imports and that are not among the sources.
    [None] stands for the [ValueError] that [netlib.encoding] raises for
    every failure, and for the error of the other helpers.

    [netlib.encoding.decode] / [encode] are one Python function each, used
    at two types: on the Content-Encoding layer (bytes to bytes) and on the
    charset layer (bytes to text and back). *)
Class Ports : Type := {
  (** [encoding.decode(raw, content_encoding)] *)
  encoding_decode : bytes -> string -> option bytes;
  (** [encoding.encode(content, content_encoding)] *)
  encoding_encode : bytes -> string -> option bytes;
  (** [encoding.decode(content, charset)] *)
  encoding_decode_text : bytes -> string -> option text;
  (** [encoding.encode(text, charset)] *)
  encoding_encode_text : text -> string -> option bytes;
  (** [content.decode("utf8", "replace" if six.PY2 else "surrogateescape")] *)
  utf8_decode_tolerant : bytes -> text;
  (** [text.encode("utf8", "replace" if six.PY2 else "surrogateescape")] *)
  utf8_encode_tolerant : text -> option bytes;
  (** [headers.parse_content_type] *)
  parse_content_type : string -> option (string * string * params);
  (** [headers.assemble_content_type] *)
  assemble_content_type : string -> string -> params -> string;
  (** [strutils.escaped_str_to_bytes] *)
  escaped_str_to_bytes : text -> option bytes;
  (** [re.subn(pattern, repl, subject, flags=flags)] *)
  re_subn : bytes -> bytes -> bytes -> N -> option (bytes * nat)
}.

(** A content-encoding name that the codec rejects whatever the input. *)
Definition unsupported `{Ports} (scheme : string) : Prop :=
  forall x : bytes,
    encoding_decode x scheme = None /\ encoding_encode x scheme = None.

(** ** [CachedDecode] *)

Record CachedDecode (A : Type) : Type := mkCachedDecode {
  encoded : option bytes;
  encoding : option string;
  strict : option bool;
  decoded : option A
}.

Arguments mkCachedDecode {A} _ _ _ _.

(** [no_cached_decode = CachedDecode(None, None, None, None)] *)
Definition no_cached_decode {A} : CachedDecode A :=
  mkCachedDecode None None None None.

(** ** [Message]

    [raw_content] and [headers] live in [self.data]; the HTTP version and
    the two timestamps of [self.data] are plain fields that none of the
    operations below reads or writes. *)

Record Message : Type := mkMessage {
  raw_content : option bytes;
  headers : Headers;
  _content_cache : CachedDecode bytes;
  _text_cache : CachedDecode text
}.

Definition with_raw_content (r : option bytes) (m : Message) : Message :=
  mkMessage r (headers m) (_content_cache m) (_text_cache m).

Definition with_headers (h : Headers) (m : Message) : Message :=
  mkMessage (raw_content m) h (_content_cache m) (_text_cache m).

Definition with_content_cache (c : CachedDecode bytes) (m : Message) : Message :=
  mkMessage (raw_content m) (headers m) c (_text_cache m).

Definition with_text_cache (c : CachedDecode text) (m : Message) : Message :=
  mkMessage (raw_content m) (headers m) (_content_cache m) c.

(** [Message.__init__] on top of a data record. *)
Definition new_message (raw : option bytes) (h : Headers) : Message :=
  mkMessage raw h no_cached_decode no_cached_decode.

(** ** Methods as state transformers *)

Definition M (A : Type) : Type := Message -> result A * Message.

Definition ret {A} (a : A) : M A := fun m => (Ok a, m).

Definition raise {A} (e : exn) : M A := fun m => (Raise e, m).

Definition bind {A B} (c : M A) (k : A -> M B) : M B :=
  fun m =>
    match c m with
    | (Ok a, m') => k a m'
    | (Raise e, m') => (Raise e, m')
    end.

Definition gets {A} (f : Message -> A) : M A := fun m => (Ok (f m), m).

Definition modify (f : Message -> Message) : M unit := fun m => (Ok tt, f m).

Declare Scope msg_scope.
Delimit Scope msg_scope with msg.

Notation "x <- c ;; k" := (bind c (fun x => k))
  (at level 100, c at next level, right associativity) : msg_scope.
Notation "c ;; k" := (bind c (fun _ => k))
  (at level 100, right associativity) : msg_scope.

Open Scope msg_scope.

Section MessageMethods.

Context `{P : Ports}.

(** [Headers.replace]: the substitution runs over each field rendered as
    its [name: value] line; a field whose line lost its separator is kept
    as it was and its substitutions are not counted.

    Modelled from the spec: the Header Port's in-place regex replace
    returning a count. *)
Fixpoint headers_replace (pattern repl : bytes) (flags : N) (h : Headers)
  : option (Headers * nat) :=
  match h with
  | [] => Some ([], 0)
  | (name, value) :: rest =>
    match re_subn pattern repl
            (b name ++ b ": " ++ b value)%list flags with
    | None => None
    | Some (line, n) =>
      match headers_replace pattern repl flags rest with
      | None => None
      | Some (rest', k) =>
        match split_colon line with
        | Some (name', value') =>
          Some ((string_of_list_byte name', string_of_list_byte value') :: rest',
                n + k)
        | None => Some ((name, value) :: rest', k)
        end
      end
    end
  end.

(** [Message.get_content] *)
Definition get_content (strict_arg : bool) : M (option bytes) :=
  raw <- gets raw_content ;;
  match raw with
  | None => ret None
  | Some raw_bytes =>
    ce <- gets (fun m => headers_get "content-encoding" (headers m)) ;;
    cache <- gets _content_cache ;;
    let cached :=
      (encoded cache == Some raw_bytes)
      && (truthy_flag (strict cache) || negb strict_arg)
      && (encoding cache == ce) in
    (if negb cached then
       if truthy_str ce then
         match encoding_decode raw_bytes (match ce with Some e => e | None => "" end) with
         | Some decoded_bytes =>
           modify (with_content_cache
                     (mkCachedDecode (Some raw_bytes) ce (Some true) (Some decoded_bytes)))
         | None =>
           if strict_arg then raise ValueError
           else
             modify (with_content_cache
                       (mkCachedDecode (Some raw_bytes) ce (Some false) (Some raw_bytes)))
         end
       else
         modify (with_content_cache
                   (mkCachedDecode (Some raw_bytes) ce (Some true) (Some raw_bytes)))
     else ret tt) ;;
    gets (fun m => decoded (_content_cache m))
  end.

(** [ce or "identity"] *)
Definition ce_or_identity (ce : option string) : string :=
  match ce with
  | Some e => if truthy_str ce then e else "identity"
  | None => "identity"
  end.

(** [len(self.raw_content)]: [TypeError] on [None]. *)
Definition set_content_length : M unit :=
  raw <- gets raw_content ;;
  match raw with
  | Some r =>
    modify (fun m => with_headers
                       (headers_setitem "content-length" (str_of_nat (List.length r)) (headers m)) m)
  | None => raise TypeError
  end.

(** [Message.set_content] *)
Definition set_content (value : option pyobj) : M unit :=
  match value with
  | None => modify (with_raw_content None)
  | Some (PyStr _) => raise TypeError
  | Some (PyBytes v) =>
    ce <- gets (fun m => headers_get "content-encoding" (headers m)) ;;
    cache <- gets _content_cache ;;
    let cached :=
      (decoded cache == Some v)
      && (encoding cache == ce)
      && truthy_flag (strict cache) in
    (if negb cached then
       match encoding_encode v (ce_or_identity ce) with
       | Some encoded_bytes =>
         modify (with_content_cache
                   (mkCachedDecode (Some encoded_bytes) ce (Some true) (Some v)))
       | None =>
         h <- gets headers ;;
         match headers_delitem "content-encoding" h with
         | None => raise KeyError
         | Some h' =>
           modify (with_headers h') ;;
           modify (with_content_cache
                     (mkCachedDecode (Some v) None (Some true) (Some v)))
         end
       end
     else ret tt) ;;
    modify (fun m => with_raw_content (encoded (_content_cache m)) m) ;;
    set_content_length
  end.

(** [Message._get_content_type_charset] *)
Definition _get_content_type_charset (m : Message) : option string :=
  match parse_content_type (headers_get_default "content-type" (headers m)) with
  | Some (_, _, parameters) => params_get "charset" parameters
  | None => None
  end.

(** [Message._guess_encoding] *)
Definition _guess_encoding (m : Message) : string :=
  let enc := _get_content_type_charset m in
  if truthy_str enc then match enc with Some e => e | None => "" end
  else if str_in "json" (headers_get_default "content-type" (headers m))
       then "utf8"
       else "latin-1".

(** [encoding.decode(content, enc)] on whatever [get_content] returned:
    anything but bytes makes the codec fail. *)
Definition decode_text_of (content : option bytes) (enc : string) : option text :=
  match content with
  | Some c => encoding_decode_text c enc
  | None => None
  end.

(** [Message.get_text] *)
Definition get_text (strict_arg : bool) : M (option text) :=
  raw <- gets raw_content ;;
  match raw with
  | None => ret None
  | Some _ =>
    enc <- gets _guess_encoding ;;
    content <- get_content strict_arg ;;
    cache <- gets _text_cache ;;
    let cached :=
      (encoded cache == content)
      && (truthy_flag (strict cache) || negb strict_arg)
      && (encoding cache == Some enc) in
    (if negb cached then
       is_strict <- gets (fun m => strict (_content_cache m)) ;;
       match decode_text_of content enc with
       | Some decoded_text =>
         modify (with_text_cache
                   (mkCachedDecode content (Some enc) is_strict (Some decoded_text)))
       | None =>
         if strict_arg then raise ValueError
         else
           again <- get_content true ;;
           match again with
           | None => raise AttributeError
           | Some c =>
             modify (with_text_cache
                       (mkCachedDecode content (Some enc) (Some false)
                                       (Some (utf8_decode_tolerant c))))
           end
       end
     else ret tt) ;;
    gets (fun m => decoded (_text_cache m))
  end.

(** [parse_content_type(...) or ("text", "plain", {})] with
    [ct[2]["charset"] = "utf-8"], assembled again. *)
Definition utf8_content_type (m : Message) : string :=
  match parse_content_type (headers_get_default "content-type" (headers m)) with
  | Some (ty, subty, parameters) =>
    assemble_content_type ty subty (params_set "charset" "utf-8" parameters)
  | None =>
    assemble_content_type "text" "plain" (params_set "charset" "utf-8" [])
  end.

(** [Message.set_text] *)
Definition set_text (value : option text) : M unit :=
  match value with
  | None => set_content None
  | Some t =>
    enc <- gets _guess_encoding ;;
    cache <- gets _text_cache ;;
    let cached :=
      (decoded cache == Some t)
      && (encoding cache == Some enc)
      && truthy_flag (strict cache) in
    (if negb cached then
       match encoding_encode_text t enc with
       | Some encoded_bytes =>
         modify (with_text_cache
                   (mkCachedDecode (Some encoded_bytes) (Some enc) (Some true) (Some t)))
       | None =>
         modify (fun m => with_headers
                            (headers_setitem "content-type" (utf8_content_type m) (headers m)) m) ;;
         match utf8_encode_tolerant t with
         | None => raise ValueError
         | Some encoded_bytes =>
           modify (with_text_cache
                     (mkCachedDecode (Some encoded_bytes) (Some "utf8") (Some true) (Some t)))
         end
       end
     else ret tt) ;;
    e <- gets (fun m => encoded (_text_cache m)) ;;
    set_content (option_map PyBytes e)
  end.

(** [Message.decode] *)
Definition decode (strict_arg : bool) : M unit :=
  c <- get_content strict_arg ;;
  modify (with_raw_content c) ;;
  modify (fun m => with_headers (headers_pop "content-encoding" (headers m)) m).

(** [Message.encode] *)
Definition encode (e : string) : M unit :=
  modify (fun m => with_headers (headers_setitem "content-encoding" e (headers m)) m) ;;
  raw <- gets raw_content ;;
  set_content (option_map PyBytes raw) ;;
  present <- gets (fun m => headers_contains "content-encoding" (headers m)) ;;
  if negb present then raise ValueError else ret tt.

(** [if isinstance(x, six.text_type): x = strutils.escaped_str_to_bytes(x)] *)
Definition pattern_bytes (x : pyobj) : option bytes :=
  match x with
  | PyBytes v => Some v
  | PyStr t => escaped_str_to_bytes t
  end.

Definition as_pattern_bytes (x : pyobj) : M bytes :=
  match pattern_bytes x with
  | Some v => ret v
  | None => raise ValueError
  end.

(** [Message.replace] *)
Definition replace (pattern repl : pyobj) (flags : N) : M nat :=
  pattern_bytes <- as_pattern_bytes pattern ;;
  repl_bytes <- as_pattern_bytes repl ;;
  c <- get_content true ;;
  replacements <-
    (if truthy_bytes c then
       subject <- get_content true ;;
       match subject with
       | None => raise TypeError
       | Some s =>
         match re_subn pattern_bytes repl_bytes s flags with
         | None => raise ReError
         | Some (new_content, n) =>
           set_content (Some (PyBytes new_content)) ;;
           ret n
         end
       end
     else ret 0) ;;
  h <- gets headers ;;
  match headers_replace pattern_bytes repl_bytes flags h with
  | None => raise ReError
  | Some (h', k) =>
    modify (with_headers h') ;;
    ret (replacements + k)
  end.

(** ** States a caller can bring about

    A message starts from a data record with both caches empty; a caller
    may then assign [raw_content] and [headers] directly and call any of
    the methods, whether the call returns or raises. *)
Inductive reachable : Message -> Prop :=
| reach_new raw h : reachable (new_message raw h)
| reach_raw_content m r : reachable m -> reachable (with_raw_content r m)
| reach_headers m h : reachable m -> reachable (with_headers h m)
| reach_get_content m s : reachable m -> reachable (snd (get_content s m))
| reach_set_content m v : reachable m -> reachable (snd (set_content v m))
| reach_get_text m s : reachable m -> reachable (snd (get_text s m))
| reach_set_text m v : reachable m -> reachable (snd (set_text v m))
| reach_decode m s : reachable m -> reachable (snd (decode s m))
| reach_encode m e : reachable m -> reachable (snd (encode e m))
| reach_replace m p r f : reachable m -> reachable (snd (replace p r f m)).

(** What every reachable content cache satisfies: the sentinel has no
    input; an entry computed leniently passes its input through; an entry
    marked strict has an input and was computed under no encoding or under
    one the codec accepted. *)
Definition content_cache_ok (c : CachedDecode bytes) : Prop :=
  match strict c with
  | None => encoded c = None
  | Some false => encoded c <> None /\ decoded c = encoded c
  | Some true =>
    encoded c <> None /\
    forall e, encoding c = Some e -> e <> "" -> ~ unsupported e
  end.

Definition message_ok (m : Message) : Prop :=
  content_cache_ok (_content_cache m).

(** A method keeps the content cache well-formed, whether it returns or
    raises. *)
Definition preserves {A} (c : M A) : Prop :=
  forall m, message_ok m -> message_ok (snd (c m)).

(** The identity codec accepts every input and returns it. *)
Definition encodes_identity : Prop :=
  forall v : bytes, encoding_encode v "identity" = Some v.

End MessageMethods.

(** ** A concrete set of collaborators

    Modelled from the spec: the Codec Port, the Content-Type Port and the
    pattern substitution ([netlib.encoding], [netlib.http.headers],
    [netlib.strutils] and [re] are not among the sources).  [netlib.encoding]
    looks a name up in its own table (identity, gzip, deflate) and otherwise
    hands it to Python's codec registry; the tables below hold the entries
    the examples use (identity, the bytes-to-bytes codec hex, Latin-1 and
    UTF-8 under Python 3) and report every other name as unknown. *)
Module Model.

#[local] Open Scope N_scope.

Definition N_of_byte (x : byte) : N := Byte.to_N x.

Definition byte_of_N (n : N) : byte :=
  match Byte.of_N n with
  | Some x => x
  | None => x00
  end.

(** *** The hex codec *)

Definition hex_digit (n : N) : byte :=
  byte_of_N (if n <? 10 then 48 + n else 87 + n)%N.

Definition hex_value (x : byte) : option N :=
  let n := N_of_byte x in
  if (48 <=? n) && (n <=? 57) then Some (n - 48)
  else if (97 <=? n) && (n <=? 102) then Some (n - 87)
  else if (65 <=? n) && (n <=? 70) then Some (n - 55)
  else None.

Fixpoint hex_encode (v : bytes) : bytes :=
  match v with
  | [] => []
  | x :: rest =>
    hex_digit (N_of_byte x / 16) :: hex_digit (N_of_byte x mod 16) :: hex_encode rest
  end.

Fixpoint hex_decode (v : bytes) : option bytes :=
  match v with
  | [] => Some []
  | hi :: lo :: rest =>
    match hex_value hi, hex_value lo, hex_decode rest with
    | Some h, Some l, Some out => Some (byte_of_N (16 * h + l) :: out)
    | _, _, _ => None
    end
  | _ => None
  end.

Definition content_decode (v : bytes) (scheme : string) : option bytes :=
  if scheme == "identity" then Some v
  else if scheme == "hex" then hex_decode v
  else None.

Definition content_encode (v : bytes) (scheme : string) : option bytes :=
  if scheme == "identity" then Some v
  else if scheme == "hex" then Some (hex_encode v)
  else None.

(** *** Latin-1 *)

Definition latin1_decode (v : bytes) : text := map N_of_byte v.

Fixpoint latin1_encode (t : text) : option bytes :=
  match t with
  | [] => Some []
  | c :: rest =>
    if c <? 256 then
      match latin1_encode rest with
      | Some out => Some (byte_of_N c :: out)
      | None => None
      end
    else None
  end%N.

(** *** UTF-8 (Python 3) *)

Definition is_surrogate (c : N) : bool := ((55296 <=? c) && (c <=? 57343))%N.

(** The bytes of one code point; a surrogate is refused, except that the
    tolerant form turns an escaped byte (U+DC80..U+DCFF) back into it. *)
Definition utf8_encode_char (tolerant : bool) (c : N) : option bytes :=
  (if c <? 128 then Some [byte_of_N c]
   else if c <? 2048 then
     Some [byte_of_N (192 + c / 64); byte_of_N (128 + c mod 64)]
   else if is_surrogate c then
     if tolerant && (56448 <=? c) && (c <=? 56575)
     then Some [byte_of_N (c - 56320)]
     else None
   else if c <? 65536 then
     Some [byte_of_N (224 + c / 4096); byte_of_N (128 + (c / 64) mod 64);
           byte_of_N (128 + c mod 64)]
   else if c <? 1114112 then
     Some [byte_of_N (240 + c / 262144); byte_of_N (128 + (c / 4096) mod 64);
           byte_of_N (128 + (c / 64) mod 64); byte_of_N (128 + c mod 64)]
   else None)%N.

Fixpoint utf8_encode (tolerant : bool) (t : text) : option bytes :=
  match t with
  | [] => Some []
  | c :: rest =>
    match utf8_encode_char tolerant c, utf8_encode tolerant rest with
    | Some x, Some out => Some (x ++ out)%list
    | _, _ => None
    end
  end.

Definition is_cont (x : N) : bool := ((128 <=? x) && (x <=? 191))%N.

(** The code point that starts with byte [b0], and how many of the bytes
    after it belong to it; [None] when no well-formed sequence starts here. *)
Definition utf8_step (b0 : N) (rest : list N) : option (N * nat) :=
  (if b0 <? 128 then Some (b0, 0%nat)
   else if (194 <=? b0) && (b0 <=? 223) then
     match rest with
     | b1 :: _ =>
       if is_cont b1 then Some ((b0 - 192) * 64 + (b1 - 128), 1%nat) else None
     | _ => None
     end
   else if (224 <=? b0) && (b0 <=? 239) then
     match rest with
     | b1 :: b2 :: _ =>
       let c := (b0 - 224) * 4096 + (b1 - 128) * 64 + (b2 - 128) in
       if is_cont b1 && is_cont b2 && (2048 <=? c) && negb (is_surrogate c)
       then Some (c, 2%nat) else None
     | _ => None
     end
   else if (240 <=? b0) && (b0 <=? 244) then
     match rest with
     | b1 :: b2 :: b3 :: _ =>
       let c := (b0 - 240) * 262144 + (b1 - 128) * 4096
                + (b2 - 128) * 64 + (b3 - 128) in
       if is_cont b1 && is_cont b2 && is_cont b3
          && (65536 <=? c) && (c <? 1114112)
       then Some (c, 3%nat) else None
     | _ => None
     end
   else None)%N.

(** Strict decoding fails at the first ill-formed byte; tolerant decoding
    ([surrogateescape]) keeps that byte as U+DC00 + byte and goes on. *)
Fixpoint utf8_decode_from (tolerant : bool) (v : list N) : option text :=
  match v with
  | [] => Some []
  | b0 :: r0 =>
    match utf8_step b0 r0 with
    | Some (c, 0%nat) => option_map (cons c) (utf8_decode_from tolerant r0)
    | Some (c, 1%nat) =>
      match r0 with
      | _ :: r1 => option_map (cons c) (utf8_decode_from tolerant r1)
      | _ => None
      end
    | Some (c, 2%nat) =>
      match r0 with
      | _ :: _ :: r2 => option_map (cons c) (utf8_decode_from tolerant r2)
      | _ => None
      end
    | Some (c, _) =>
      match r0 with
      | _ :: _ :: _ :: r3 => option_map (cons c) (utf8_decode_from tolerant r3)
      | _ => None
      end
    | None =>
      if tolerant
      then option_map (cons (56320 + b0)%N) (utf8_decode_from tolerant r0)
      else None
    end
  end.

Definition utf8_decode (tolerant : bool) (v : bytes) : option text :=
  utf8_decode_from tolerant (map N_of_byte v).

Definition is_utf8_name (charset : string) : bool :=
  (lower charset == "utf8") || (lower charset == "utf-8").

Definition is_latin1_name (charset : string) : bool :=
  (lower charset == "latin-1") || (lower charset == "latin1")
  || (lower charset == "iso-8859-1").

Definition charset_decode (v : bytes) (charset : string) : option text :=
  if is_utf8_name charset then utf8_decode false v
  else if is_latin1_name charset then Some (latin1_decode v)
  else None.

Definition charset_encode (t : text) (charset : string) : option bytes :=
  if is_utf8_name charset then utf8_encode false t
  else if is_latin1_name charset then latin1_encode t
  else None.

Definition decode_tolerant (v : bytes) : text :=
  match utf8_decode true v with
  | Some t => t
  | None => []
  end.

(** *** Content types *)

(** [s.split(sep, 1)]: the part before the first [sep], and the part after
    it when there is one. *)
Fixpoint split_once (sep : ascii) (s : string) : string * option string :=
  match s with
  | EmptyString => (EmptyString, None)
  | String c rest =>
    if Ascii.eqb c sep then (EmptyString, Some rest)
    else let (head, tail) := split_once sep rest in (String c head, tail)
  end.

(** [s.split(sep)] *)
Fixpoint split_all (sep : ascii) (s : string) : list string :=
  match s with
  | EmptyString => [EmptyString]
  | String c rest =>
    if Ascii.eqb c sep then EmptyString :: split_all sep rest
    else match split_all sep rest with
         | head :: tail => String c head :: tail
         | [] => [String c EmptyString]
         end
  end.

Definition is_space (c : ascii) : bool :=
  let n := nat_of_ascii c in
  ((9 <=? n) && (n <=? 13) || (n =? 32))%nat.

Fixpoint lstrip (s : string) : string :=
  match s with
  | String c rest => if is_space c then lstrip rest else s
  | EmptyString => EmptyString
  end.

Fixpoint rstrip (s : string) : string :=
  match s with
  | EmptyString => EmptyString
  | String c rest =>
    match rstrip rest with
    | EmptyString => if is_space c then EmptyString else String c EmptyString
    | rest' => String c rest'
    end
  end.

Definition strip (s : string) : string := rstrip (lstrip s).

Fixpoint parse_clauses (clauses : list string) (d : params) : params :=
  match clauses with
  | [] => d
  | i :: rest =>
    match split_once "=" i with
    | (k, Some v) => parse_clauses rest (params_set (strip k) (strip v) d)
    | (_, None) => parse_clauses rest d
    end
  end.

Definition parse (c : string) : option (string * string * params) :=
  let (head, tail) := split_once ";" c in
  match split_once "/" head with
  | (_, None) => None
  | (ty, Some subty) =>
    let d := match tail with
             | Some clauses => parse_clauses (split_all ";" clauses) []
             | None => []
             end in
    Some (lower ty, lower subty, d)
  end.

Fixpoint join_clauses (d : params) : string :=
  match d with
  | [] => ""
  | [(k, v)] => k ++ "=" ++ v
  | (k, v) :: rest => k ++ "=" ++ v ++ "; " ++ join_clauses rest
  end.

Definition assemble (ty subty : string) (d : params) : string :=
  ty ++ "/" ++ subty ++ "; " ++ join_clauses d.

(** *** Patterns *)

(** Text made of ASCII characters other than the backslash stands for
    itself; text with escapes or beyond ASCII is outside this table. *)
Fixpoint unescape (t : text) : option bytes :=
  match t with
  | [] => Some []
  | c :: rest =>
    if (c <? 128) && negb (c =? 92) then
      match unescape rest with
      | Some out => Some (byte_of_N c :: out)
      | None => None
      end
    else None
  end.

(** The bytes that mean something other than themselves in a pattern. *)
Definition is_meta (x : byte) : bool :=
  existsb (fun y => x == y) (b ".^$*+?{}[]\|()").

Fixpoint is_prefix (p s : bytes) : bool :=
  match p, s with
  | [], _ => true
  | x :: p', y :: s' => (x == y) && is_prefix p' s'
  | _ :: _, [] => false
  end.

(** Leftmost non-overlapping occurrences of a literal pattern; [skip]
    counts the bytes of the occurrence just replaced that are still ahead. *)
Fixpoint subn_from (pat repl : bytes) (skip : nat) (s : bytes) : bytes * nat :=
  match s with
  | [] => ([], 0%nat)
  | c :: rest =>
    match skip with
    | S k => subn_from pat repl k rest
    | O =>
      if is_prefix pat s then
        let (out, n) := subn_from pat repl (List.length pat - 1) rest in
        ((repl ++ out)%list, S n)
      else
        let (out, n) := subn_from pat repl 0 rest in
        (c :: out, n)
    end
  end.

(** [re.subn] on the patterns that are plain literals: a non-empty pattern
    without metacharacters, a replacement without backslash, no flags. *)
Definition subn (pat repl s : bytes) (flags : N) : option (bytes * nat) :=
  match pat with
  | [] => None
  | _ :: _ =>
    if negb (existsb is_meta pat) && negb (existsb (fun x => x == x5c) repl)
       && (flags =? 0)
    then Some (subn_from pat repl 0 s)
    else None
  end.

#[global] Instance ports : Ports := {
  encoding_decode := content_decode;
  encoding_encode := content_encode;
  encoding_decode_text := charset_decode;
  encoding_encode_text := charset_encode;
  utf8_decode_tolerant := decode_tolerant;
  utf8_encode_tolerant := utf8_encode true;
  parse_content_type := parse;
  assemble_content_type := assemble;
  escaped_str_to_bytes := unescape;
  re_subn := subn
}.

End Model.

(** ** What the caches hold

    Every entry the methods write pairs an input with what the transform
    made of it under the entry's parameter.  The predicates below say so;
    they hold in every state a caller can bring about, as long as the
    identity codec is the identity. *)
Section CacheProvenance.

Context `{P : Ports}.

(** [d] is what the content layer makes of [raw] under the header value
    [ce]: [raw] itself when there is no encoding, else a result of the
    decoder, or an input from which the encoder produced [raw]. *)
Definition decodes_to (raw : bytes) (ce : option string) (d : bytes) : Prop :=
  if truthy_str ce
  then exists e, ce = Some e
                 /\ (encoding_decode raw e = Some d \/ encoding_encode d e = Some raw)
  else d = raw.

(** The sentinel has no input.  A strict entry holds a decoding of its
    input; a lenient one passes through an input the decoder refused. *)
Definition content_cache_sound (c : CachedDecode bytes) : Prop :=
  match strict c with
  | None => encoded c = None
  | Some s =>
    exists raw d,
      encoded c = Some raw /\ decoded c = Some d
      /\ if s then decodes_to raw (encoding c) d
         else d = raw
              /\ exists e, encoding c = Some e /\ e <> ""
                           /\ encoding_decode raw e = None
  end.

(** The sentinel has no input; every other entry has both sides. *)
Definition text_cache_sound (c : CachedDecode text) : Prop :=
  match strict c with
  | None => encoded c = None
  | Some _ => exists cb t, encoded c = Some cb /\ decoded c = Some t
  end.

Definition message_sound (m : Message) : Prop :=
  content_cache_sound (_content_cache m) /\ text_cache_sound (_text_cache m).

(** A method keeps a property of the state, whether it returns or raises. *)
Definition keeps {A} (I : Message -> Prop) (c : M A) : Prop :=
  forall m, I m -> I (snd (c m)).

End CacheProvenance.

(** ** Example messages *)
Module Examples.

(** A body under a Content-Encoding no codec knows. *)
Definition bogus_encoded : Message :=
  new_message (Some [xff]) [("Content-Encoding", "bogus")].

(** The same, declared as JSON: the guessed charset is UTF-8, which cannot
    decode the byte 0xff. *)
Definition bogus_encoded_json : Message :=
  new_message (Some [xff])
              [("Content-Encoding", "bogus"); ("Content-Type", "application/json")].

(** A message whose two caches hold entries computed leniently. *)
Definition lenient_cached : Message :=
  mkMessage (Some [xff]) [("Content-Encoding", "bogus")]
            (mkCachedDecode (Some [xff]) (Some "bogus") (Some false) (Some [xff]))
            (mkCachedDecode (Some [xff]) (Some "latin-1") (Some false) (Some [255%N])).

(** A hex-encoded body. *)
Definition hex_encoded : Message :=
  new_message (Some (b "6162")) [("Content-Encoding", "hex")].

(** A message without a body. *)
Definition bodiless : Message := new_message None [].

(** The message of the substitution example. *)
Definition hello : Message :=
  new_message (Some (b "hello world")) [("X-Test", "hello")].

(** A message with an empty body. *)
Definition empty_body : Message :=
  new_message (Some []) [("X-Test", "hello")].

(** The text h, EURO SIGN, l, l, o: beyond Latin-1. *)
Definition euro_text : text := [104; 8364; 108; 108; 111]%N.

Definition euro_bytes : bytes := [x68; xe2; x82; xac; x6c; x6c; x6f].

End Examples.

(** ** Further example messages *)
Module MoreExamples.

(** A hex-encoded body in upper-case digits: it decodes to [jk], while the
    encoder would write those two bytes as [6a6b]. *)
Definition hex_upper : Message :=
  new_message (Some (b "6A6B")) [("Content-Encoding", "hex")].

(** A JSON body that is not UTF-8. *)
Definition json_ff : Message :=
  new_message (Some [xff]) [("Content-Type", "application/json")].

(** The text h, e-acute, l, l, o: within Latin-1. *)
Definition hello_text : text := [104; 233; 108; 108; 111]%N.

(** A text made of one lone surrogate, U+D800. *)
Definition lone_surrogate : text := [55296%N].

End MoreExamples.

(** * Properties *)

Unset Implicit Arguments.

(** ** Equality tests *)

Lemma py_eq_true {A} `{EqDec A} (x y : A) : (x == y) = true <-> x = y.
Proof.
  unfold py_eq. destruct (eq_dec x y); split; intros; congruence.
Qed.

Lemma py_eq_false {A} `{EqDec A} (x y : A) : (x == y) = false <-> x <> y.
Proof.
  unfold py_eq. destruct (eq_dec x y); split; intros; congruence.
Qed.

Lemma py_eq_refl {A} `{EqDec A} (x : A) : (x == x) = true.
Proof. apply py_eq_true. reflexivity. Qed.

Lemma truthy_str_Some (ce : option string) :
  truthy_str ce = true <-> exists e, ce = Some e /\ e <> "".
Proof.
  destruct ce as [[|c e]|]; simpl; split; intros H;
    try discriminate; try reflexivity.
  - destruct H as [e [He Hne]]. inversion He; subst. congruence.
  - eexists; split; [reflexivity | discriminate].
  - destruct H as [e [He _]]. discriminate.
Qed.

Lemma truthy_flag_true (f : option bool) : truthy_flag f = true <-> f = Some true.
Proof. destruct f as [[|]|]; simpl; split; congruence. Qed.

(** ** The header container *)

Section HeaderFacts.

Implicit Types (h : Headers) (name value : string).

Lemma same_name_fst name f value :
  same_name name (fst f, value) = same_name name f.
Proof. reflexivity. Qed.

Lemma filter_filter_negb {A} (p : A -> bool) (l : list A) :
  filter p (filter (fun x => negb (p x)) l) = [].
Proof.
  induction l as [|x l IH]; simpl; [reflexivity|].
  destruct (p x) eqn:E; simpl; [assumption|]. rewrite E. assumption.
Qed.

Lemma filter_filter_implied {A} (p q : A -> bool) (l : list A) :
  (forall x, p x = true -> q x = true) ->
  filter p (filter q l) = filter p l.
Proof.
  intros Hpq. induction l as [|x l IH]; simpl; [reflexivity|].
  destruct (q x) eqn:Eq; simpl.
  - rewrite IH. reflexivity.
  - destruct (p x) eqn:Ep; [|assumption].
    apply Hpq in Ep. congruence.
Qed.

Lemma filter_none {A} (p : A -> bool) (l : list A) :
  existsb p l = false -> filter p l = [].
Proof.
  induction l as [|x l IH]; simpl; [reflexivity|].
  intros H. apply orb_false_iff in H. destruct H as [Hx Hl].
  rewrite Hx. auto.
Qed.

Lemma same_name_other n1 n2 f :
  lower n1 <> lower n2 -> same_name n1 f = true -> same_name n2 f = false.
Proof.
  unfold same_name. intros Hne H1. apply (proj1 (py_eq_true _ _)) in H1.
  apply (proj2 (py_eq_false _ _)). congruence.
Qed.

Lemma headers_get_all_replace_first name value h :
  headers_contains name h = true ->
  headers_get_all name (headers_replace_first name value h) = [value].
Proof.
  unfold headers_get_all, headers_contains.
  induction h as [|f h IH]; simpl; [discriminate|].
  destruct (same_name name f) eqn:E; simpl.
  - intros _. rewrite same_name_fst, E. simpl.
    rewrite filter_filter_negb. reflexivity.
  - intros H. rewrite E. auto.
Qed.

Lemma headers_get_setitem name value h :
  headers_get name (headers_setitem name value h) = Some value.
Proof.
  unfold headers_get, headers_setitem.
  destruct (headers_contains name h) eqn:E.
  - rewrite headers_get_all_replace_first by assumption. reflexivity.
  - unfold headers_get_all. rewrite filter_app.
    rewrite (filter_none _ _ E). simpl.
    unfold same_name at 1. simpl. rewrite py_eq_refl. reflexivity.
Qed.

Lemma headers_contains_get_all name h :
  headers_contains name h = false <-> headers_get_all name h = [].
Proof.
  unfold headers_contains, headers_get_all.
  induction h as [|f h IH]; simpl; [tauto|].
  destruct (same_name name f); simpl; [split; discriminate | exact IH].
Qed.

Lemma headers_get_None name h :
  headers_get name h = None <-> headers_contains name h = false.
Proof.
  rewrite headers_contains_get_all. unfold headers_get.
  destruct (headers_get_all name h); split; congruence.
Qed.

Lemma headers_get_Some_contains name h v :
  headers_get name h = Some v -> headers_contains name h = true.
Proof.
  intros H. destruct (headers_contains name h) eqn:E; [reflexivity|].
  apply headers_get_None in E. congruence.
Qed.

Lemma headers_contains_setitem name value h :
  headers_contains name (headers_setitem name value h) = true.
Proof.
  eapply headers_get_Some_contains. apply headers_get_setitem.
Qed.

Lemma headers_get_all_setitem_other n1 n2 value h :
  lower n1 <> lower n2 ->
  headers_get_all n1 (headers_setitem n2 value h) = headers_get_all n1 h.
Proof.
  intros Hne. unfold headers_setitem, headers_get_all.
  destruct (headers_contains n2 h).
  - f_equal. induction h as [|f h IH]; simpl; [reflexivity|].
    destruct (same_name n2 f) eqn:E2; simpl.
    + assert (E1 : same_name n1 f = false).
      { destruct (same_name n1 f) eqn:E1; [|reflexivity].
        apply (@same_name_other _ _ _ Hne) in E1. congruence. }
      rewrite same_name_fst, E1.
      apply filter_filter_implied. intros x Hx.
      rewrite (@same_name_other _ _ _ Hne Hx). reflexivity.
    + rewrite IH. reflexivity.
  - rewrite filter_app. simpl.
    assert (E : same_name n1 (n2, value) = false).
    { apply (proj2 (py_eq_false _ _)). simpl. congruence. }
    rewrite E, app_nil_r. reflexivity.
Qed.

Lemma headers_get_setitem_other n1 n2 value h :
  lower n1 <> lower n2 ->
  headers_get n1 (headers_setitem n2 value h) = headers_get n1 h.
Proof.
  intros Hne. unfold headers_get.
  rewrite headers_get_all_setitem_other by assumption. reflexivity.
Qed.

Lemma headers_delitem_Some name h v :
  headers_get name h = Some v -> exists h', headers_delitem name h = Some h'.
Proof.
  intros H. apply headers_get_Some_contains in H.
  unfold headers_delitem. rewrite H. eauto.
Qed.

Lemma headers_get_delitem name h h' :
  headers_delitem name h = Some h' -> headers_get name h' = None.
Proof.
  unfold headers_delitem. destruct (headers_contains name h); [|discriminate].
  intros H. inversion H; subst. unfold headers_get, headers_get_all.
  rewrite filter_filter_negb. reflexivity.
Qed.

Lemma headers_get_delitem_other n1 n2 h h' :
  lower n1 <> lower n2 ->
  headers_delitem n2 h = Some h' -> headers_get n1 h' = headers_get n1 h.
Proof.
  intros Hne. unfold headers_delitem.
  destruct (headers_contains n2 h); [|discriminate].
  intros H. inversion H; subst. unfold headers_get, headers_get_all.
  rewrite filter_filter_implied; [reflexivity|].
  intros x Hx. rewrite (@same_name_other _ _ _ Hne Hx). reflexivity.
Qed.

Lemma headers_get_pop name h : headers_get name (headers_pop name h) = None.
Proof.
  unfold headers_pop. destruct (headers_delitem name h) eqn:E.
  - eapply headers_get_delitem; eassumption.
  - unfold headers_delitem in E.
    destruct (headers_contains name h) eqn:C; [discriminate|].
    apply headers_get_None. assumption.
Qed.

Lemma headers_pop_absent name h :
  headers_get name h = None -> headers_pop name h = h.
Proof.
  intros H. apply headers_get_None in H.
  unfold headers_pop, headers_delitem. rewrite H. reflexivity.
Qed.

End HeaderFacts.

(** ** Well-formed content caches *)

Ltac run := unfold bind, gets, modify, ret, raise in *; simpl in *.

(** Runs the state plumbing of the goal and reads record fields, leaving
    the header container and the collaborators folded. *)
Ltac fields :=
  cbn [raw_content headers _content_cache _text_cache
       with_raw_content with_headers with_content_cache with_text_cache
       encoded encoding strict decoded fst snd
       negb andb orb truthy_flag option_map].

Ltac steps := unfold bind, gets, modify, ret, raise; fields.

Section Invariant.

Context `{P : Ports}.

Lemma preserves_ret {A} (a : A) : preserves (ret a).
Proof. intros m Hm. exact Hm. Qed.

Lemma preserves_raise {A} (e : exn) : preserves (@raise A e).
Proof. intros m Hm. exact Hm. Qed.

Lemma preserves_gets {A} (f : Message -> A) : preserves (gets f).
Proof. intros m Hm. exact Hm. Qed.

Lemma preserves_bind {A B} (c : M A) (k : A -> M B) :
  preserves c -> (forall a, preserves (k a)) -> preserves (bind c k).
Proof.
  intros Hc Hk m Hm. unfold bind. specialize (Hc m Hm).
  destruct (c m) as [[a|e] m']; simpl in *; [apply Hk|]; assumption.
Qed.

Lemma preserves_modify (f : Message -> Message) :
  (forall m, _content_cache (f m) = _content_cache m) -> preserves (modify f).
Proof.
  intros Hf m Hm. unfold modify, message_ok in *. simpl. rewrite Hf. exact Hm.
Qed.

Lemma preserves_new_entry (c : CachedDecode bytes) :
  content_cache_ok c -> preserves (modify (with_content_cache c)).
Proof. intros Hc m _. exact Hc. Qed.

Lemma strict_entry_ok (raw : bytes) (ce : option string) (d : bytes) :
  (forall e, ce = Some e -> e <> "" -> ~ unsupported e) ->
  content_cache_ok (mkCachedDecode (Some raw) ce (Some true) (Some d)).
Proof. intros H. split; [discriminate | exact H]. Qed.

Lemma lenient_entry_ok (raw : bytes) (ce : option string) :
  content_cache_ok (mkCachedDecode (Some raw) ce (Some false) (Some raw)).
Proof. split; [discriminate | reflexivity]. Qed.

Lemma get_content_preserves (s : bool) : preserves (get_content s).
Proof.
  unfold get_content.
  apply preserves_bind; [apply preserves_gets|]. intros [raw|]; [|apply preserves_ret].
  apply preserves_bind; [apply preserves_gets|]. intros ce.
  apply preserves_bind; [apply preserves_gets|]. intros cache.
  apply preserves_bind; [|intros _; apply preserves_gets].
  destruct (negb _); [|apply preserves_ret].
  destruct (truthy_str ce) eqn:Ht.
  - apply truthy_str_Some in Ht. destruct Ht as [e [-> Hne]].
    destruct (encoding_decode raw e) eqn:Hd.
    + apply preserves_new_entry, strict_entry_ok.
      intros e' He' _ Hu. inversion He'; subst e'.
      destruct (Hu raw) as [Hd' _]. congruence.
    + destruct s; [apply preserves_raise|].
      apply preserves_new_entry, lenient_entry_ok.
  - apply preserves_new_entry, strict_entry_ok.
    intros e -> Hne _.
    assert (Ht' : truthy_str (Some e) = true)
      by (apply truthy_str_Some; eauto).
    congruence.
Qed.

Lemma set_content_length_preserves : preserves set_content_length.
Proof.
  unfold set_content_length.
  apply preserves_bind; [apply preserves_gets|]. intros [r|].
  - apply preserves_modify. reflexivity.
  - apply preserves_raise.
Qed.

Lemma set_content_preserves (v : option pyobj) : preserves (set_content v).
Proof.
  unfold set_content. destruct v as [[v|t]|].
  - apply preserves_bind; [apply preserves_gets|]. intros ce.
    apply preserves_bind; [apply preserves_gets|]. intros cache.
    apply preserves_bind.
    + destruct (negb _); [|apply preserves_ret].
      destruct (encoding_encode v (ce_or_identity ce)) eqn:He.
      * apply preserves_new_entry, strict_entry_ok.
        intros e -> Hne Hu. unfold ce_or_identity in He.
        assert (Ht : truthy_str (Some e) = true)
          by (apply truthy_str_Some; eauto).
        rewrite Ht in He. destruct (Hu v) as [_ He']. congruence.
      * apply preserves_bind; [apply preserves_gets|]. intros h.
        destruct (headers_delitem "content-encoding" h); [|apply preserves_raise].
        apply preserves_bind; [apply preserves_modify; reflexivity|]. intros _.
        apply preserves_new_entry, strict_entry_ok. discriminate.
    + intros _. apply preserves_bind; [apply preserves_modify; reflexivity|].
      intros _. apply set_content_length_preserves.
  - apply preserves_raise.
  - apply preserves_modify. reflexivity.
Qed.

Lemma get_text_preserves (s : bool) : preserves (get_text s).
Proof.
  unfold get_text.
  apply preserves_bind; [apply preserves_gets|]. intros [raw|]; [|apply preserves_ret].
  apply preserves_bind; [apply preserves_gets|]. intros enc.
  apply preserves_bind; [apply get_content_preserves|]. intros content.
  apply preserves_bind; [apply preserves_gets|]. intros cache.
  apply preserves_bind; [|intros _; apply preserves_gets].
  destruct (negb _); [|apply preserves_ret].
  apply preserves_bind; [apply preserves_gets|]. intros is_strict.
  destruct (decode_text_of content enc).
  - apply preserves_modify. reflexivity.
  - destruct s; [apply preserves_raise|].
    apply preserves_bind; [apply get_content_preserves|]. intros [c|].
    + apply preserves_modify. reflexivity.
    + apply preserves_raise.
Qed.

Lemma set_text_preserves (v : option text) : preserves (set_text v).
Proof.
  unfold set_text. destruct v as [t|]; [|apply set_content_preserves].
  apply preserves_bind; [apply preserves_gets|]. intros enc.
  apply preserves_bind; [apply preserves_gets|]. intros cache.
  apply preserves_bind.
  - destruct (negb _); [|apply preserves_ret].
    destruct (encoding_encode_text t enc).
    + apply preserves_modify. reflexivity.
    + apply preserves_bind; [apply preserves_modify; reflexivity|]. intros _.
      destruct (utf8_encode_tolerant t).
      * apply preserves_modify. reflexivity.
      * apply preserves_raise.
  - intros _. apply preserves_bind; [apply preserves_gets|]. intros e.
    apply set_content_preserves.
Qed.

Lemma decode_preserves (s : bool) : preserves (decode s).
Proof.
  unfold decode.
  apply preserves_bind; [apply get_content_preserves|]. intros c.
  apply preserves_bind; [apply preserves_modify; reflexivity|]. intros _.
  apply preserves_modify. reflexivity.
Qed.

Lemma encode_preserves (e : string) : preserves (encode e).
Proof.
  unfold encode.
  apply preserves_bind; [apply preserves_modify; reflexivity|]. intros _.
  apply preserves_bind; [apply preserves_gets|]. intros raw.
  apply preserves_bind; [apply set_content_preserves|]. intros _.
  apply preserves_bind; [apply preserves_gets|]. intros present.
  destruct (negb present); [apply preserves_raise | apply preserves_ret].
Qed.

Lemma as_pattern_bytes_preserves (x : pyobj) : preserves (as_pattern_bytes x).
Proof.
  unfold as_pattern_bytes.
  destruct (pattern_bytes x); [apply preserves_ret | apply preserves_raise].
Qed.

Lemma replace_preserves (pattern repl : pyobj) (flags : N) :
  preserves (replace pattern repl flags).
Proof.
  unfold replace.
  apply preserves_bind; [apply as_pattern_bytes_preserves|]. intros pat.
  apply preserves_bind; [apply as_pattern_bytes_preserves|]. intros rep.
  apply preserves_bind; [apply get_content_preserves|]. intros c.
  apply preserves_bind.
  - destruct (truthy_bytes c); [|apply preserves_ret].
    apply preserves_bind; [apply get_content_preserves|]. intros [subject|].
    + destruct (re_subn pat rep subject flags) as [[new n]|].
      * apply preserves_bind; [apply set_content_preserves|]. intros _.
        apply preserves_ret.
      * apply preserves_raise.
    + apply preserves_raise.
  - intros n. apply preserves_bind; [apply preserves_gets|]. intros h.
    destruct (headers_replace pat rep flags h) as [[h' k]|].
    + apply preserves_bind; [apply preserves_modify; reflexivity|]. intros _.
      apply preserves_ret.
    + apply preserves_raise.
Qed.

(** Every state a caller can bring about has a well-formed content cache. *)
Lemma reachable_ok (m : Message) : reachable m -> message_ok m.
Proof.
  induction 1.
  - reflexivity.
  - exact IHreachable.
  - exact IHreachable.
  - apply get_content_preserves; assumption.
  - apply set_content_preserves; assumption.
  - apply get_text_preserves; assumption.
  - apply set_text_preserves; assumption.
  - apply decode_preserves; assumption.
  - apply encode_preserves; assumption.
  - apply replace_preserves; assumption.
Qed.

End Invariant.

(** ** Reading the content *)

Section ContentLayer.

Context `{P : Ports}.

Lemma truthy_str_named (ce : string) : ce <> "" -> truthy_str (Some ce) = true.
Proof. intros H. apply truthy_str_Some. eauto. Qed.

(** No entry of a well-formed cache is marked strict under an encoding the
    codec rejects. *)
Lemma unsupported_not_strict (c : CachedDecode bytes) (ce : string) :
  content_cache_ok c -> encoding c = Some ce -> ce <> "" -> unsupported ce ->
  truthy_flag (strict c) = false.
Proof.
  unfold content_cache_ok. intros Hok He Hne Hu.
  destruct (strict c) as [[|]|]; try reflexivity.
  destruct Hok as [_ Hok]. exfalso. exact (Hok ce He Hne Hu).
Qed.

(** Under an encoding the codec rejects, a lenient read passes the body
    through and leaves a non-strict entry. *)
Lemma get_content_passes_through (m : Message) (raw : bytes) (ce : string) :
  reachable m ->
  raw_content m = Some raw ->
  headers_get "content-encoding" (headers m) = Some ce ->
  ce <> "" ->
  unsupported ce ->
  get_content false m =
  (Ok (Some raw),
   with_content_cache (mkCachedDecode (Some raw) (Some ce) (Some false) (Some raw)) m).
Proof.
  intros Hr Hraw Hce Hne Hu. pose proof (reachable_ok m Hr) as Hok.
  destruct ce as [|a ce']; [congruence|]. set (ce := String a ce') in *.
  unfold get_content. run. rewrite Hraw, Hce.
  destruct (_ && _ && _) eqn:Hc; simpl.
  - apply andb_true_iff in Hc. destruct Hc as [Hc Henc].
    apply andb_true_iff in Hc. destruct Hc as [Hraw' _].
    apply (proj1 (py_eq_true _ _)) in Henc.
    apply (proj1 (py_eq_true _ _)) in Hraw'.
    unfold message_ok, content_cache_ok in Hok.
    destruct m as [r h [e enc [[|]|] d] tc]; simpl in *; subst.
    + destruct Hok as [_ Hok]. exfalso. exact (Hok ce eq_refl Hne Hu).
    + destruct Hok as [_ Hok]. subst. reflexivity.
    + discriminate.
  - destruct (Hu raw) as [Hd _]. rewrite Hd. reflexivity.
Qed.

(** C1: for a message with a body whose Content-Encoding header names a
    scheme the codec rejects, [get_content] with [strict=False] does not
    raise; it returns the raw bytes unchanged and leaves the content cache
    holding exactly the entry (raw, header value, non-strict, raw), with the
    body and the headers untouched. *)
Theorem get_content_lenient_unsupported (m : Message) (raw : bytes) (ce : string) :
  reachable m ->
  raw_content m = Some raw ->
  headers_get "content-encoding" (headers m) = Some ce ->
  ce <> "" ->
  unsupported ce ->
  get_content false m =
  (Ok (Some raw),
   with_content_cache (mkCachedDecode (Some raw) (Some ce) (Some false) (Some raw)) m)
  /\ strict (_content_cache (snd (get_content false m))) = Some false.
Proof.
  intros Hr Hraw Hce Hne Hu.
  rewrite (get_content_passes_through m raw ce Hr Hraw Hce Hne Hu).
  split; reflexivity.
Qed.

(** What [get_content] leaves alone. *)
Lemma get_content_frame (s : bool) (m : Message) :
  raw_content (snd (get_content s m)) = raw_content m
  /\ headers (snd (get_content s m)) = headers m
  /\ _text_cache (snd (get_content s m)) = _text_cache m.
Proof.
  unfold get_content. run.
  destruct (raw_content m) as [raw|] eqn:Hraw; simpl; [|auto].
  destruct (negb _); simpl; [|auto].
  destruct (truthy_str _); simpl; [|auto].
  destruct (encoding_decode _ _); simpl; [auto|].
  destruct s; simpl; auto.
Qed.

(** [get_content] does not look at the text cache. *)
Lemma get_content_text_cache (s : bool) (m : Message) (tc : CachedDecode text) :
  get_content s (with_text_cache tc m) =
  (fst (get_content s m), with_text_cache tc (snd (get_content s m))).
Proof.
  unfold get_content. run.
  destruct (raw_content m) as [raw|] eqn:Hraw; simpl; [|reflexivity].
  destruct (negb _); simpl; [|reflexivity].
  destruct (truthy_str _); simpl; [|reflexivity].
  destruct (encoding_decode _ _); simpl; [reflexivity|].
  destruct s; reflexivity.
Qed.

(** When there is a body, the value returned is the one the cache holds
    afterwards. *)
Lemma get_content_returns_cached (s : bool) (m m' : Message) (c : option bytes) :
  raw_content m <> None ->
  get_content s m = (Ok c, m') ->
  decoded (_content_cache m') = c.
Proof.
  unfold get_content. run.
  destruct (raw_content m) as [raw|] eqn:Hraw; simpl; [|congruence].
  intros _.
  destruct (negb _); simpl.
  - destruct (truthy_str _); simpl.
    + destruct (encoding_decode _ _); simpl.
      * intros H. inversion H; subst. reflexivity.
      * destruct s; simpl; intros H; inversion H; subst. reflexivity.
    + intros H. inversion H; subst. reflexivity.
  - intros H. inversion H; subst. reflexivity.
Qed.

(** C2: a cache entry whose strict flag is false never answers a strict
    call.  On a message with a body, a strict [get_content] over a lenient
    content entry, and a strict [get_text] over a lenient text entry, give
    the outcome that the same message with that cache emptied gives, and
    when they return they leave the very state the emptied message would
    be left in: the transform is computed afresh. *)
Theorem lenient_entry_not_reused_strictly (m : Message) (raw : bytes) :
  raw_content m = Some raw ->
  (strict (_content_cache m) = Some false ->
   let fresh := get_content true (with_content_cache no_cached_decode m) in
   fst (get_content true m) = fst fresh
   /\ forall c, fst fresh = Ok c -> snd (get_content true m) = snd fresh)
  /\
  (strict (_text_cache m) = Some false ->
   let fresh := get_text true (with_text_cache no_cached_decode m) in
   fst (get_text true m) = fst fresh
   /\ forall t, fst fresh = Ok t -> snd (get_text true m) = snd fresh).
Proof.
  intros Hraw. split.
  - intros Hs. unfold get_content. run. rewrite Hraw, Hs. simpl.
    rewrite andb_false_r. simpl.
    destruct (truthy_str _); simpl.
    + destruct (encoding_decode _ _); simpl; split; try reflexivity.
      intros c Hc. discriminate.
    + split; reflexivity.
  - intros Hs. unfold get_text. run. rewrite Hraw.
    rewrite get_content_text_cache.
    destruct (get_content true m) as [[content|e] m1] eqn:Hg; simpl.
    + destruct (get_content_frame true m) as [_ [Hh Htc]].
      rewrite Hg in Hh, Htc. simpl in Hh, Htc. rewrite Htc, Hs. simpl.
      rewrite andb_false_r, andb_false_r. simpl.
      destruct (decode_text_of content _); simpl; split; try reflexivity.
      intros t Ht. discriminate.
    + split; [reflexivity|]. intros t Ht. discriminate.
Qed.

(** A cache entry that matches the body and the header answers the call
    and nothing changes. *)
Lemma get_content_hit (s : bool) (m : Message) (raw : bytes) :
  raw_content m = Some raw ->
  encoded (_content_cache m) = Some raw ->
  encoding (_content_cache m) = headers_get "content-encoding" (headers m) ->
  truthy_flag (strict (_content_cache m)) = true \/ s = false ->
  get_content s m = (Ok (decoded (_content_cache m)), m).
Proof.
  intros Hraw He Hc Hs. unfold get_content. run.
  rewrite Hraw, He, Hc, !py_eq_refl. simpl.
  destruct Hs as [-> | ->]; simpl; rewrite ?orb_true_r; reflexivity.
Qed.

(** The state a returning [get_content] leaves: its entry matches the body
    and the header, holds the value returned, and is strict when the call
    was. *)
Lemma get_content_post (s : bool) (m m' : Message) (raw : bytes) (c : option bytes) :
  raw_content m = Some raw ->
  get_content s m = (Ok c, m') ->
  raw_content m' = Some raw
  /\ headers m' = headers m
  /\ _text_cache m' = _text_cache m
  /\ encoded (_content_cache m') = Some raw
  /\ encoding (_content_cache m') = headers_get "content-encoding" (headers m)
  /\ decoded (_content_cache m') = c
  /\ (s = true -> strict (_content_cache m') = Some true).
Proof.
  intros Hraw. unfold get_content. run. rewrite Hraw.
  destruct (_ && _ && _) eqn:Hc; simpl.
  - intros H. inversion H; subst m' c. clear H.
    apply andb_true_iff in Hc. destruct Hc as [Hc Henc].
    apply andb_true_iff in Hc. destruct Hc as [He Hs].
    apply (proj1 (py_eq_true _ _)) in Henc.
    apply (proj1 (py_eq_true _ _)) in He.
    repeat split; try assumption.
    intros ->. rewrite orb_false_r in Hs. apply truthy_flag_true. assumption.
  - destruct (truthy_str _); simpl.
    + destruct (encoding_decode _ _); simpl.
      * intros H. inversion H; subst m' c. simpl. repeat split; assumption.
      * destruct s; simpl; intros H; inversion H; subst m' c. simpl.
        repeat split; try assumption. discriminate.
    + intros H. inversion H; subst m' c. simpl. repeat split; assumption.
Qed.

(** Reading twice: the second call returns the same value and changes
    nothing (the transform runs at most once). *)
Lemma get_content_again (s : bool) (m m' : Message) (c : option bytes) :
  get_content s m = (Ok c, m') -> get_content s m' = (Ok c, m').
Proof.
  intros H. destruct (raw_content m) as [raw|] eqn:Hraw.
  - destruct (get_content_post s m m' raw c Hraw H)
      as (Hr & Hh & _ & He & Henc & Hd & Hs).
    rewrite <- Hd. apply (get_content_hit s m' raw Hr He).
    + rewrite Hh. assumption.
    + destruct s; [left | right; reflexivity].
      apply truthy_flag_true. auto.
  - unfold get_content in *. run. rewrite Hraw in H. inversion H; subst.
    rewrite Hraw. reflexivity.
Qed.

End ContentLayer.

(** ** Reading the text *)

Section TextLayer.

Context `{P : Ports}.

(** C3: [get_text] with [strict=False] is meant never to raise, but its
    fallback reads [self.content], which is a strict read.  On a message
    with a body, a Content-Encoding the codec rejects and a body that the
    guessed charset cannot decode (and no text cached for that body), the
    lenient call raises [ValueError], leaving only the lenient content
    entry behind. *)
Theorem get_text_lenient_raises (m : Message) (raw : bytes) (ce : string) :
  reachable m ->
  raw_content m = Some raw ->
  headers_get "content-encoding" (headers m) = Some ce ->
  ce <> "" ->
  unsupported ce ->
  encoding_decode_text raw (_guess_encoding m) = None ->
  encoded (_text_cache m) <> Some raw ->
  get_text false m =
  (Raise ValueError,
   with_content_cache (mkCachedDecode (Some raw) (Some ce) (Some false) (Some raw)) m).
Proof.
  intros Hr Hraw Hce Hne Hu Hd Hmiss.
  unfold get_text. unfold bind at 1. unfold gets at 1. rewrite Hraw.
  unfold bind at 1. unfold gets at 1.
  unfold bind at 1.
  rewrite (get_content_passes_through m raw ce Hr Hraw Hce Hne Hu).
  unfold bind at 1. unfold gets at 1. simpl _text_cache.
  apply (proj2 (py_eq_false _ _)) in Hmiss. rewrite Hmiss. simpl negb.
  cbv iota. unfold bind at 1. unfold bind at 1. unfold gets at 1.
  unfold decode_text_of. rewrite Hd.
  unfold get_content. steps. rewrite Hraw. fields.
  rewrite Hce, py_eq_refl. fields.
  rewrite (truthy_str_named ce Hne).
  destruct (Hu raw) as [Hdec _]. rewrite Hdec. reflexivity.
Qed.

(** The sibling path: when the content was read strictly, the lenient
    fallback goes through and yields the tolerant decoding, cached as
    non-strict. *)
Lemma get_text_lenient_fallback (m m1 : Message) (c : bytes) :
  get_content false m = (Ok (Some c), m1) ->
  raw_content m <> None ->
  strict (_content_cache m1) = Some true ->
  encoding_decode_text c (_guess_encoding m) = None ->
  encoded (_text_cache m) <> Some c ->
  get_text false m =
  (Ok (Some (utf8_decode_tolerant c)),
   with_text_cache
     (mkCachedDecode (Some c) (Some (_guess_encoding m)) (Some false)
                     (Some (utf8_decode_tolerant c))) m1).
Proof.
  intros Hg Hraw Hs Hd Hmiss.
  destruct (raw_content m) as [raw|] eqn:Hr; [clear Hraw | congruence].
  destruct (get_content_post false m m1 raw (Some c) Hr Hg)
    as (Hr1 & Hh & Htc & He & Henc & Hdc & _).
  assert (Hagain : get_content true m1 = (Ok (Some c), m1)).
  { rewrite <- Hdc. apply (get_content_hit true m1 raw Hr1 He).
    - rewrite Hh. assumption.
    - left. apply truthy_flag_true. assumption. }
  unfold get_text. unfold bind at 1. unfold gets at 1. rewrite Hr.
  unfold bind at 1. unfold gets at 1.
  unfold bind at 1. rewrite Hg.
  unfold bind at 1. unfold gets at 1. rewrite Htc.
  apply (proj2 (py_eq_false _ _)) in Hmiss. rewrite Hmiss. simpl negb.
  cbv iota. unfold bind at 1. unfold bind at 1. unfold gets at 1.
  unfold decode_text_of. rewrite Hd.
  unfold bind at 1. rewrite Hagain. reflexivity.
Qed.

End TextLayer.

(** ** Writing the content *)

Section ContentWrite.

Context `{P : Ports}.

Lemma lower_ce_cl : lower "content-encoding" <> lower "content-length".
Proof. discriminate. Qed.

Lemma lower_ct_ce : lower "content-type" <> lower "content-encoding".
Proof. discriminate. Qed.

Lemma lower_ct_cl : lower "content-type" <> lower "content-length".
Proof. discriminate. Qed.

(** The state a returning [set_content] leaves: the body is the encoded
    side of a strict cache entry whose decoded side is the value written,
    the entry is filed under the Content-Encoding header as it now stands,
    Content-Length is the length of the body, and the text cache and every
    other header are as before. *)
Lemma set_content_post (m m' : Message) (v : bytes) :
  set_content (Some (PyBytes v)) m = (Ok tt, m') ->
  (exists r, raw_content m' = Some r
             /\ encoded (_content_cache m') = Some r
             /\ headers_get "content-length" (headers m')
                = Some (str_of_nat (List.length r)))
  /\ decoded (_content_cache m') = Some v
  /\ strict (_content_cache m') = Some true
  /\ encoding (_content_cache m')
     = headers_get "content-encoding" (headers m')
  /\ _text_cache m' = _text_cache m
  /\ (forall name,
        lower name <> lower "content-encoding" ->
        lower name <> lower "content-length" ->
        headers_get name (headers m') = headers_get name (headers m)).
Proof.
  unfold set_content, set_content_length. steps.
  destruct (_ && _ && _) eqn:Hc; fields.
  - apply andb_true_iff in Hc. destruct Hc as [Hc Hs].
    apply andb_true_iff in Hc. destruct Hc as [Hd Henc].
    apply (proj1 (py_eq_true _ _)) in Hd.
    apply (proj1 (py_eq_true _ _)) in Henc.
    apply truthy_flag_true in Hs.
    destruct (encoded (_content_cache m)) as [r|] eqn:He; [|discriminate].
    intros H. inversion H; subst m'. clear H. fields.
    repeat split; try assumption.
    + exists r. repeat split; [assumption | apply headers_get_setitem].
    + rewrite headers_get_setitem_other by apply lower_ce_cl. assumption.
    + intros name _ Hcl. apply headers_get_setitem_other. assumption.
  - destruct (encoding_encode v _) as [e|] eqn:He; fields.
    + intros H. inversion H; subst m'. clear H. fields.
      repeat split.
      * exists e. repeat split. apply headers_get_setitem.
      * rewrite headers_get_setitem_other by apply lower_ce_cl. reflexivity.
      * intros name _ Hcl. apply headers_get_setitem_other. assumption.
    + destruct (headers_delitem _ _) as [h'|] eqn:Hdel; fields; [|discriminate].
      intros H. inversion H; subst m'. clear H. fields.
      repeat split.
      * exists v. repeat split. apply headers_get_setitem.
      * rewrite headers_get_setitem_other by apply lower_ce_cl.
        symmetry. eapply headers_get_delitem. eassumption.
      * intros name Hce Hcl.
        rewrite headers_get_setitem_other by assumption.
        exact (headers_get_delitem_other name "content-encoding" _ _ Hce Hdel).
Qed.

(** With a well-formed cache and an identity codec that accepts its input,
    writing bytes always returns. *)
Lemma set_content_returns (m : Message) (v : bytes) :
  message_ok m -> encodes_identity ->
  exists m', set_content (Some (PyBytes v)) m = (Ok tt, m').
Proof.
  intros Hok Hid. unfold set_content, set_content_length. steps.
  destruct (_ && _ && _) eqn:Hc; fields.
  - apply andb_true_iff in Hc. destruct Hc as [_ Hs].
    apply truthy_flag_true in Hs.
    unfold message_ok, content_cache_ok in Hok. rewrite Hs in Hok.
    destruct Hok as [He _].
    destruct (encoded (_content_cache m)) as [r|]; [|congruence].
    eexists. reflexivity.
  - destruct (encoding_encode v _) as [e|] eqn:He; fields.
    + eexists. reflexivity.
    + destruct (headers_get "content-encoding" (headers m)) as [ce|] eqn:Hce.
      * destruct (headers_delitem_Some _ _ _ Hce) as [h' Hdel].
        rewrite Hdel. fields. eexists. reflexivity.
      * unfold ce_or_identity in He. rewrite Hid in He. discriminate.
Qed.

(** After a write, reading gives the value written back, from the cache. *)
Lemma get_content_after_set (s : bool) (m m' : Message) (v : bytes) :
  set_content (Some (PyBytes v)) m = (Ok tt, m') ->
  get_content s m' = (Ok (Some v), m').
Proof.
  intros H. destruct (set_content_post m m' v H)
    as ((r & Hr & He & _) & Hd & Hs & Henc & _).
  rewrite <- Hd. apply (get_content_hit s m' r Hr He Henc).
  left. apply truthy_flag_true. assumption.
Qed.


(** A well-formed cache never answers a write under an encoding the codec
    rejects. *)
Lemma set_content_miss (c : CachedDecode bytes) (v : bytes) (ce : string) :
  content_cache_ok c -> ce <> "" -> unsupported ce ->
  (decoded c == Some v) && (encoding c == Some ce) && truthy_flag (strict c) = false.
Proof.
  intros Hok Hne Hu.
  destruct (encoding c == Some ce) eqn:He.
  - apply (proj1 (py_eq_true _ _)) in He.
    rewrite (unsupported_not_strict c ce Hok He Hne Hu). apply andb_false_r.
  - rewrite andb_false_r. reflexivity.
Qed.

(** What a write does under an encoding the codec rejects. *)
Lemma set_content_recovers (m : Message) (v : bytes) (ce : string) :
  message_ok m ->
  headers_get "content-encoding" (headers m) = Some ce ->
  ce <> "" ->
  unsupported ce ->
  exists h',
    headers_delitem "content-encoding" (headers m) = Some h'
    /\ set_content (Some (PyBytes v)) m =
       (Ok tt,
        mkMessage (Some v)
                  (headers_setitem "content-length" (str_of_nat (List.length v)) h')
                  (mkCachedDecode (Some v) None (Some true) (Some v))
                  (_text_cache m)).
Proof.
  intros Hok Hce Hne Hu.
  destruct (headers_delitem_Some _ _ _ Hce) as [h' Hdel].
  exists h'. split; [assumption|].
  unfold set_content, set_content_length. steps.
  rewrite Hce, (set_content_miss _ v ce Hok Hne Hu). fields.
  unfold ce_or_identity. rewrite (truthy_str_named ce Hne).
  destruct (Hu v) as [_ He]. rewrite He, Hdel. fields. reflexivity.
Qed.

(** C5: when [set_content(b)] is called while the Content-Encoding header
    names a scheme the codec rejects, the write returns: the header is
    removed, [b] itself becomes the raw body, the cache holds [b] as a
    strict entry under no encoding, and Content-Length is the length of
    [b]. *)
Theorem set_content_unsupported_encoding (m : Message) (v : bytes) (ce : string) :
  reachable m ->
  headers_get "content-encoding" (headers m) = Some ce ->
  ce <> "" ->
  unsupported ce ->
  exists m',
    set_content (Some (PyBytes v)) m = (Ok tt, m')
    /\ headers_get "content-encoding" (headers m') = None
    /\ headers_contains "content-encoding" (headers m') = false
    /\ raw_content m' = Some v
    /\ _content_cache m' = mkCachedDecode (Some v) None (Some true) (Some v)
    /\ headers_get "content-length" (headers m') = Some (str_of_nat (List.length v)).
Proof.
  intros Hr Hce Hne Hu.
  destruct (set_content_recovers m v ce (reachable_ok m Hr) Hce Hne Hu)
    as (h' & Hdel & Hset).
  eexists. split; [exact Hset|]. fields.
  assert (Hnone : headers_get "content-encoding"
                    (headers_setitem "content-length" (str_of_nat (List.length v)) h')
                  = None).
  { rewrite headers_get_setitem_other by apply lower_ce_cl.
    eapply headers_get_delitem. eassumption. }
  repeat split.
  - assumption.
  - apply headers_get_None. assumption.
  - apply headers_get_setitem.
Qed.

End ContentWrite.

(** ** [decode] and [encode] *)

Section Facade.

Context `{P : Ports}.

(** Reading a message that carries no Content-Encoding and whose cache,
    if there is a body, holds that body as its decoded side. *)
Lemma get_content_plain (s : bool) (m : Message) :
  headers_get "content-encoding" (headers m) = None ->
  (raw_content m <> None -> decoded (_content_cache m) = raw_content m) ->
  exists m',
    get_content s m = (Ok (raw_content m), m')
    /\ raw_content m' = raw_content m
    /\ headers m' = headers m
    /\ decoded (_content_cache m') = decoded (_content_cache m).
Proof.
  intros Hce Hd. unfold get_content. steps.
  destruct (raw_content m) as [raw|] eqn:Hraw.
  - rewrite Hce. fields. destruct (_ && _ && _); fields.
    + exists m. rewrite Hd by discriminate. rewrite Hraw. auto.
    + cbn [truthy_str]. fields. eexists. repeat split; fields.
      * assumption.
      * symmetry. apply Hd. discriminate.
  - exists m. auto.
Qed.

(** On such a message [decode] returns and keeps the body and the headers. *)
Lemma decode_plain (s : bool) (m : Message) :
  headers_get "content-encoding" (headers m) = None ->
  (raw_content m <> None -> decoded (_content_cache m) = raw_content m) ->
  exists m',
    decode s m = (Ok tt, m')
    /\ raw_content m' = raw_content m
    /\ headers m' = headers m
    /\ decoded (_content_cache m') = decoded (_content_cache m).
Proof.
  intros Hce Hd.
  destruct (get_content_plain s m Hce Hd) as (m1 & Hg & Hr & Hh & Hc).
  unfold decode. unfold bind at 1. rewrite Hg. steps.
  eexists. repeat split; fields.
  - rewrite Hh. apply headers_pop_absent. assumption.
  - assumption.
Qed.

(** The state a returning [decode] leaves. *)
Lemma decode_post (s : bool) (m m1 : Message) :
  decode s m = (Ok tt, m1) ->
  fst (get_content s m) = Ok (raw_content m1)
  /\ headers m1 = headers_pop "content-encoding" (headers m)
  /\ (raw_content m1 <> None -> decoded (_content_cache m1) = raw_content m1).
Proof.
  unfold decode. unfold bind at 1.
  destruct (get_content s m) as [[c|e] m'] eqn:Hg; [|discriminate].
  steps. intros H. inversion H; subst m1. clear H. fields.
  destruct (get_content_frame s m) as (_ & Hh & _). rewrite Hg in Hh.
  simpl in Hh. rewrite Hh. repeat split.
  intros Hc. destruct (raw_content m) as [raw|] eqn:Hraw.
  - destruct (get_content_post s m m' raw c Hraw Hg) as (_ & _ & _ & _ & _ & Hd & _).
    assumption.
  - unfold get_content in Hg. run. rewrite Hraw in Hg.
    inversion Hg; subst. congruence.
Qed.

(** C6: [decode(strict=True)], when it returns, has set the raw body to
    the content read strictly and left no Content-Encoding header; a
    second call returns as well and changes neither the body nor the
    headers, and the content read after either call is that same body. *)
Theorem decode_strict_idempotent (m m1 : Message) :
  decode true m = (Ok tt, m1) ->
  fst (get_content true m) = Ok (raw_content m1)
  /\ headers_get "content-encoding" (headers m1) = None
  /\ headers_contains "content-encoding" (headers m1) = false
  /\ fst (get_content true m1) = Ok (raw_content m1)
  /\ exists m2,
       decode true m1 = (Ok tt, m2)
       /\ raw_content m2 = raw_content m1
       /\ headers m2 = headers m1
       /\ fst (get_content true m2) = Ok (raw_content m1).
Proof.
  intros H. destruct (decode_post true m m1 H) as (Hc & Hh & Hd).
  assert (Hce : headers_get "content-encoding" (headers m1) = None)
    by (rewrite Hh; apply headers_get_pop).
  split; [assumption|]. split; [assumption|].
  split; [apply headers_get_None; assumption|].
  destruct (get_content_plain true m1 Hce Hd) as (m1' & Hg1 & _).
  split; [rewrite Hg1; reflexivity|].
  destruct (decode_plain true m1 Hce Hd) as (m2 & H2 & Hr2 & Hh2 & Hd2).
  exists m2. repeat split; try assumption.
  assert (Hce2 : headers_get "content-encoding" (headers m2) = None)
    by (rewrite Hh2; assumption).
  assert (Hdec2 : raw_content m2 <> None ->
                  decoded (_content_cache m2) = raw_content m2).
  { rewrite Hd2, Hr2. assumption. }
  destruct (get_content_plain true m2 Hce2 Hdec2) as (m2' & Hg2 & _).
  rewrite Hg2, Hr2. reflexivity.
Qed.

(** C7: [encode(e)] is documented to raise [ValueError] for an invalid
    encoding, but the check rides on the failure path of [set_content],
    which a message without a body never enters.  On such a message
    [encode] with a scheme the codec rejects returns normally and leaves
    the Content-Encoding header set to that scheme. *)
Theorem encode_without_body_keeps_header (m : Message) (e : string) :
  raw_content m = None ->
  e <> "" ->
  unsupported e ->
  encode e m =
  (Ok tt, with_headers (headers_setitem "content-encoding" e (headers m)) m)
  /\ headers_get "content-encoding" (headers (snd (encode e m))) = Some e.
Proof.
  intros Hraw _ _.
  assert (He : encode e m =
               (Ok tt, with_headers (headers_setitem "content-encoding" e (headers m)) m)).
  { unfold encode, set_content. steps. rewrite Hraw. fields.
    rewrite headers_contains_setitem. fields.
    destruct m; simpl in *; subst; reflexivity. }
  split; [assumption|]. rewrite He. fields. apply headers_get_setitem.
Qed.

(** The sibling path: with a body, [encode] with a scheme the codec
    rejects raises [ValueError] and the header is gone afterwards. *)
Lemma encode_unsupported_with_body (m : Message) (raw : bytes) (e : string) :
  reachable m ->
  raw_content m = Some raw ->
  e <> "" ->
  unsupported e ->
  exists m',
    encode e m = (Raise ValueError, m')
    /\ headers_contains "content-encoding" (headers m') = false
    /\ raw_content m' = Some raw.
Proof.
  intros Hr Hraw Hne Hu.
  set (m0 := with_headers (headers_setitem "content-encoding" e (headers m)) m).
  assert (Hok : message_ok m0) by exact (reachable_ok m Hr).
  assert (Hce : headers_get "content-encoding" (headers m0) = Some e)
    by apply headers_get_setitem.
  destruct (set_content_recovers m0 raw e Hok Hce Hne Hu) as (h' & Hdel & Hset).
  assert (Hgone : headers_contains "content-encoding"
                    (headers_setitem "content-length" (str_of_nat (List.length raw)) h')
                  = false).
  { apply headers_get_None.
    rewrite headers_get_setitem_other by apply lower_ce_cl.
    eapply headers_get_delitem. eassumption. }
  eexists. split.
  - unfold encode. unfold bind at 1. unfold modify at 1. fold m0.
    unfold bind at 1. unfold gets at 1.
    replace (raw_content m0) with (Some raw) by (symmetry; exact Hraw).
    cbn [option_map]. unfold bind at 1. rewrite Hset.
    unfold bind at 1. unfold gets at 1. fields. rewrite Hgone. reflexivity.
  - split; [exact Hgone | reflexivity].
Qed.

End Facade.

(** ** Writing the text *)

Section TextWrite.

Context `{P : Ports}.

(** The charset guessed from a Content-Type whose charset parameter reads
    utf-8. *)
Lemma guess_utf8 (m : Message) (ct ty subty : string) (ps : params) :
  headers_get "content-type" (headers m) = Some ct ->
  parse_content_type ct = Some (ty, subty, ps) ->
  params_get "charset" ps = Some "utf-8" ->
  _guess_encoding m = "utf-8".
Proof.
  intros Hct Hp Hc.
  unfold _guess_encoding, _get_content_type_charset, headers_get_default.
  rewrite Hct, Hp, Hc. reflexivity.
Qed.


End TextWrite.

(** ** [replace] *)

Section Replace.

Context `{P : Ports}.

Lemma as_pattern_bytes_run (x : pyobj) (v : bytes) (m : Message) :
  pattern_bytes x = Some v -> as_pattern_bytes x m = (Ok v, m).
Proof. intros H. unfold as_pattern_bytes. rewrite H. reflexivity. Qed.

(** A returning [replace] converted both of its arguments. *)
Lemma replace_returns_patterns (pattern repl : pyobj) (flags : N)
      (m m' : Message) (n : nat) :
  replace pattern repl flags m = (Ok n, m') ->
  exists pat rep, pattern_bytes pattern = Some pat /\ pattern_bytes repl = Some rep.
Proof.
  unfold replace, as_pattern_bytes. unfold bind at 1.
  destruct (pattern_bytes pattern) as [pat|]; [|discriminate].
  unfold ret at 1. unfold bind at 1.
  destruct (pattern_bytes repl) as [rep|]; [|discriminate].
  eauto.
Qed.

(** [replace] with its arguments converted and the body read. *)
Lemma replace_unfold (pattern repl : pyobj) (flags : N) (pat rep : bytes)
      (m m1 : Message) (c : option bytes) :
  pattern_bytes pattern = Some pat ->
  pattern_bytes repl = Some rep ->
  get_content true m = (Ok c, m1) ->
  replace pattern repl flags m =
  (replacements <-
     (if truthy_bytes c then
        match c with
        | None => raise TypeError
        | Some s =>
          match re_subn pat rep s flags with
          | None => raise ReError
          | Some (new_content, n) =>
            set_content (Some (PyBytes new_content)) ;; ret n
          end
        end
      else ret 0) ;;
   h <- gets headers ;;
   match headers_replace pat rep flags h with
   | None => raise ReError
   | Some (h', k) => modify (with_headers h') ;; ret (replacements + k)
   end) m1.
Proof.
  intros Hp Hr Hg. unfold replace.
  unfold bind at 1. rewrite (as_pattern_bytes_run pattern pat m Hp).
  unfold bind at 1. rewrite (as_pattern_bytes_run repl rep m Hr).
  unfold bind at 1. rewrite Hg.
  unfold bind at 1. unfold bind at 3.
  destruct (truthy_bytes c); [|reflexivity].
  unfold bind at 1. rewrite (get_content_again true m m1 c Hg). reflexivity.
Qed.

(** The general half of C9: the count returned is the number of
    substitutions in the body plus the number in the headers. *)
Lemma replace_sums (pattern repl : pyobj) (flags : N) (m m' : Message) (n : nat) :
  replace pattern repl flags m = (Ok n, m') ->
  exists pat rep body_n headers_n mid,
    pattern_bytes pattern = Some pat
    /\ pattern_bytes repl = Some rep
    /\ n = body_n + headers_n
    /\ headers_replace pat rep flags (headers mid) = Some (headers m', headers_n)
    /\ match fst (get_content true m) with
       | Ok (Some (x :: c)) =>
         exists new_content,
           re_subn pat rep (x :: c) flags = Some (new_content, body_n)
           /\ set_content (Some (PyBytes new_content)) (snd (get_content true m))
              = (Ok tt, mid)
       | _ => body_n = 0 /\ mid = snd (get_content true m)
       end.
Proof.
  intros H.
  destruct (replace_returns_patterns pattern repl flags m m' n H)
    as (pat & rep & Hp & Hr).
  exists pat, rep.
  destruct (get_content true m) as [[c|e] m1] eqn:Hg.
  - rewrite (replace_unfold pattern repl flags pat rep m m1 c Hp Hr Hg) in H.
    cbn [fst snd].
    destruct c as [[|x c]|]; cbn [truthy_bytes] in H.
    + unfold bind at 1 in H. unfold ret at 1 in H.
      unfold bind at 1 in H. unfold gets at 1 in H.
      destruct (headers_replace pat rep flags (headers m1)) as [[h' k]|] eqn:Hh;
        [|discriminate].
      steps. injection H as Hn Hm. subst n m'. exists 0, k, m1.
      fields. repeat split; assumption || reflexivity.
    + unfold bind at 1 in H.
      destruct (re_subn pat rep (x :: c) flags) as [[new_content body_n]|] eqn:Hs;
        [|discriminate].
      unfold bind at 1 in H.
      destruct (set_content (Some (PyBytes new_content)) m1) as [[[]|e] mid] eqn:Hset;
        [|discriminate].
      unfold ret at 1 in H. unfold bind at 1 in H. unfold gets at 1 in H.
      destruct (headers_replace pat rep flags (headers mid)) as [[h' k]|] eqn:Hh;
        [|discriminate].
      steps. injection H as Hn Hm. subst n m'. exists body_n, k, mid.
      fields.
      repeat split; try assumption; try reflexivity.
      exists new_content. split; assumption || reflexivity.
    + unfold bind at 1 in H. unfold ret at 1 in H.
      unfold bind at 1 in H. unfold gets at 1 in H.
      destruct (headers_replace pat rep flags (headers m1)) as [[h' k]|] eqn:Hh;
        [|discriminate].
      steps. injection H as Hn Hm. subst n m'. exists 0, k, m1.
      fields. repeat split; assumption || reflexivity.
  - exfalso. unfold replace in H.
    unfold bind at 1 in H. rewrite (as_pattern_bytes_run pattern pat m Hp) in H.
    unfold bind at 1 in H. rewrite (as_pattern_bytes_run repl rep m Hr) in H.
    unfold bind at 1 in H. rewrite Hg in H. discriminate.
Qed.

(** With nothing to substitute in, only the headers are rewritten. *)
Lemma replace_headers_only (pattern repl : pyobj) (flags : N) (pat rep : bytes)
      (m m1 : Message) (c : option bytes) (h' : Headers) (k : nat) :
  pattern_bytes pattern = Some pat ->
  pattern_bytes repl = Some rep ->
  get_content true m = (Ok c, m1) ->
  truthy_bytes c = false ->
  headers_replace pat rep flags (headers m) = Some (h', k) ->
  replace pattern repl flags m = (Ok k, with_headers h' m1).
Proof.
  intros Hp Hr Hg Hc Hh.
  rewrite (replace_unfold pattern repl flags pat rep m m1 c Hp Hr Hg), Hc.
  destruct (get_content_frame true m) as (_ & Hhm & _).
  rewrite Hg in Hhm. simpl in Hhm.
  steps. rewrite Hhm, Hh. reflexivity.
Qed.

(** A strict read under an encoding the codec rejects raises and leaves
    the message as it was. *)
Lemma get_content_strict_raises (m : Message) (raw : bytes) (ce : string) :
  message_ok m ->
  raw_content m = Some raw ->
  headers_get "content-encoding" (headers m) = Some ce ->
  ce <> "" ->
  unsupported ce ->
  get_content true m = (Raise ValueError, m).
Proof.
  intros Hok Hraw Hce Hne Hu. unfold get_content. steps.
  rewrite Hraw, Hce. fields.
  assert (Hmiss : (encoded (_content_cache m) == Some raw)
                  && (truthy_flag (strict (_content_cache m)) || false)
                  && (encoding (_content_cache m) == Some ce) = false).
  { destruct (encoding (_content_cache m) == Some ce) eqn:He.
    - apply (proj1 (py_eq_true _ _)) in He.
      rewrite (unsupported_not_strict _ ce Hok He Hne Hu).
      rewrite andb_false_r. reflexivity.
    - apply andb_false_r. }
  rewrite Hmiss. fields. rewrite (truthy_str_named ce Hne).
  destruct (Hu raw) as [Hd _]. rewrite Hd. reflexivity.
Qed.

(** C10: [replace] reads the body strictly.  On a message with a body and
    a Content-Encoding the codec rejects it raises [ValueError] and leaves
    the message as it was, nothing substituted; on a message without a
    body, or whose body reads as empty, only the headers are rewritten and
    the count returned is the headers' count. *)
Theorem replace_reads_body_strictly
        (pattern repl : pyobj) (flags : N) (pat rep : bytes) (m : Message) :
  pattern_bytes pattern = Some pat ->
  pattern_bytes repl = Some rep ->
  (forall raw ce,
      reachable m ->
      raw_content m = Some raw ->
      headers_get "content-encoding" (headers m) = Some ce ->
      ce <> "" ->
      unsupported ce ->
      replace pattern repl flags m = (Raise ValueError, m))
  /\ (forall h' k,
         raw_content m = None ->
         headers_replace pat rep flags (headers m) = Some (h', k) ->
         replace pattern repl flags m = (Ok k, with_headers h' m))
  /\ (forall m1 h' k,
         get_content true m = (Ok (Some []), m1) ->
         headers_replace pat rep flags (headers m) = Some (h', k) ->
         replace pattern repl flags m = (Ok k, with_headers h' m1)
         /\ raw_content m1 = raw_content m).
Proof.
  intros Hp Hr. split; [|split].
  - intros raw ce Hreach Hraw Hce Hne Hu.
    unfold replace.
    unfold bind at 1. rewrite (as_pattern_bytes_run pattern pat m Hp).
    unfold bind at 1. rewrite (as_pattern_bytes_run repl rep m Hr).
    unfold bind at 1.
    rewrite (get_content_strict_raises m raw ce (reachable_ok m Hreach) Hraw Hce Hne Hu).
    reflexivity.
  - intros h' k Hraw Hh.
    apply (replace_headers_only pattern repl flags pat rep m m None h' k Hp Hr);
      try assumption; try reflexivity.
    unfold get_content. steps. rewrite Hraw. reflexivity.
  - intros m1 h' k Hg Hh. split.
    + apply (replace_headers_only pattern repl flags pat rep m m1 (Some []) h' k Hp Hr);
        try assumption; reflexivity.
    + destruct (get_content_frame true m) as (Hraw & _). rewrite Hg in Hraw.
      exact Hraw.
Qed.

End Replace.

(** ** Concrete runs *)

Lemma bogus_unsupported : @unsupported Model.ports "bogus".
Proof. intros x. split; reflexivity. Defined.

Lemma model_encodes_identity : @encodes_identity Model.ports.
Proof. intros v. reflexivity. Defined.

(** C9: [replace] returns the number of substitutions made in the body
    plus the number made across the headers; and on the message with body
    [b"hello world"] and header [X-Test: hello], replacing [b"hello"] by
    [b"bye"] returns 2 and leaves the body [b"bye world"] and the header
    value [bye]. *)
Theorem replace_counts_body_and_headers :
  (forall (P : Ports) (pattern repl : pyobj) (flags : N) (m m' : Message) (n : nat),
      replace pattern repl flags m = (Ok n, m') ->
      exists pat rep body_n headers_n mid,
        pattern_bytes pattern = Some pat
        /\ pattern_bytes repl = Some rep
        /\ n = body_n + headers_n
        /\ headers_replace pat rep flags (headers mid) = Some (headers m', headers_n)
        /\ match fst (get_content true m) with
           | Ok (Some (x :: c)) =>
             exists new_content,
               re_subn pat rep (x :: c) flags = Some (new_content, body_n)
               /\ set_content (Some (PyBytes new_content)) (snd (get_content true m))
                  = (Ok tt, mid)
           | _ => body_n = 0 /\ mid = snd (get_content true m)
           end)
  /\ (let after :=
          @replace Model.ports (PyBytes (b "hello")) (PyBytes (b "bye")) 0
                   Examples.hello in
      fst after = Ok 2
      /\ raw_content (snd after) = Some (b "bye world")
      /\ fst (@get_content Model.ports true (snd after)) = Ok (Some (b "bye world"))
      /\ headers_get "X-Test" (headers (snd after)) = Some "bye").
Proof.
  split.
  - intros P pattern repl flags m m' n H.
    exact (replace_sums pattern repl flags m m' n H).
  - repeat split; vm_compute; reflexivity.
Qed.

Lemma replace_counts_body_and_headers_witness :
  exists body_n headers_n,
    2 = body_n + headers_n
    /\ @re_subn Model.ports (b "hello") (b "bye") (b "hello world") 0
       = Some (b "bye world", body_n)
    /\ exists h h', @headers_replace Model.ports (b "hello") (b "bye") 0 h
                    = Some (h', headers_n).
Proof.
  destruct (proj1 replace_counts_body_and_headers Model.ports
                  (PyBytes (b "hello")) (PyBytes (b "bye")) 0%N Examples.hello
                  (snd (@replace Model.ports (PyBytes (b "hello")) (PyBytes (b "bye")) 0
                                 Examples.hello))
                  2 eq_refl)
    as (pat & rep & body_n & headers_n & mid & Hp & Hr & Hn & Hh & Hb).
  injection Hp as <-. injection Hr as <-.
  exists body_n, headers_n. split; [exact Hn|].
  vm_compute in Hb. destruct Hb as (new_content & Hs & _).
  split.
  - vm_compute. rewrite Hs.
    injection Hs as <- _. reflexivity.
  - eauto.
Defined.

Lemma get_content_lenient_unsupported_witness :
  @get_content Model.ports false Examples.bogus_encoded =
  (Ok (Some [xff]),
   with_content_cache
     (mkCachedDecode (Some [xff]) (Some "bogus") (Some false) (Some [xff]))
     Examples.bogus_encoded)
  /\ strict (_content_cache (snd (@get_content Model.ports false Examples.bogus_encoded)))
     = Some false.
Proof.
  apply (@get_content_lenient_unsupported Model.ports Examples.bogus_encoded [xff] "bogus").
  - apply reach_new.
  - reflexivity.
  - reflexivity.
  - discriminate.
  - exact bogus_unsupported.
Defined.

Lemma lenient_entry_not_reused_strictly_witness :
  fst (@get_content Model.ports true Examples.lenient_cached) = Raise ValueError
  /\ fst (@get_text Model.ports true Examples.lenient_cached) = Raise ValueError.
Proof.
  destruct (@lenient_entry_not_reused_strictly Model.ports Examples.lenient_cached
                                               [xff] eq_refl) as [Hc Ht].
  destruct (Hc eq_refl) as [Hc1 _]. destruct (Ht eq_refl) as [Ht1 _].
  split.
  - rewrite Hc1. reflexivity.
  - rewrite Ht1. reflexivity.
Defined.

Lemma get_text_lenient_raises_witness :
  @get_text Model.ports false Examples.bogus_encoded_json =
  (Raise ValueError,
   with_content_cache
     (mkCachedDecode (Some [xff]) (Some "bogus") (Some false) (Some [xff]))
     Examples.bogus_encoded_json).
Proof.
  apply (@get_text_lenient_raises Model.ports Examples.bogus_encoded_json [xff] "bogus").
  - apply reach_new.
  - reflexivity.
  - reflexivity.
  - discriminate.
  - exact bogus_unsupported.
  - reflexivity.
  - discriminate.
Defined.

(** C4 as stated fails: under [Content-Encoding: hex] the two bytes [ab]
    are stored as the four bytes [6162], and Content-Length says 4, not 2. *)
Lemma set_content_length_counterexample :
  let after := @set_content Model.ports (Some (PyBytes (b "ab"))) Examples.hex_encoded in
  fst after = Ok tt
  /\ raw_content (snd after) = Some (b "6162")
  /\ headers_get "content-length" (headers (snd after)) = Some "4"
  /\ headers_get "content-length" (headers (snd after))
     <> Some (str_of_nat (List.length (b "ab"))).
Proof.
  repeat split; try (vm_compute; reflexivity).
  vm_compute. discriminate.
Qed.


Lemma set_content_unsupported_encoding_witness :
  exists m',
    @set_content Model.ports (Some (PyBytes (b "data"))) Examples.bogus_encoded = (Ok tt, m')
    /\ headers_get "content-encoding" (headers m') = None
    /\ headers_contains "content-encoding" (headers m') = false
    /\ raw_content m' = Some (b "data")
    /\ _content_cache m'
       = mkCachedDecode (Some (b "data")) None (Some true) (Some (b "data"))
    /\ headers_get "content-length" (headers m')
       = Some (str_of_nat (List.length (b "data"))).
Proof.
  apply (@set_content_unsupported_encoding Model.ports Examples.bogus_encoded
                                           (b "data") "bogus").
  - apply reach_new.
  - reflexivity.
  - discriminate.
  - exact bogus_unsupported.
Defined.

Lemma decode_strict_idempotent_witness :
  let m1 := snd (@decode Model.ports true Examples.hex_encoded) in
  raw_content m1 = Some (b "ab")
  /\ fst (@get_content Model.ports true m1) = Ok (Some (b "ab"))
  /\ exists m2,
       @decode Model.ports true m1 = (Ok tt, m2)
       /\ raw_content m2 = raw_content m1
       /\ headers m2 = headers m1.
Proof.
  destruct (@decode_strict_idempotent Model.ports Examples.hex_encoded
              (snd (@decode Model.ports true Examples.hex_encoded)) eq_refl)
    as (_ & _ & _ & Hg & m2 & Hd & Hr & Hh & _).
  split; [reflexivity|]. split; [exact Hg|].
  exists m2. auto.
Defined.

Lemma encode_without_body_keeps_header_witness :
  @encode Model.ports "bogus" Examples.bodiless =
  (Ok tt, with_headers [("content-encoding", "bogus")] Examples.bodiless)
  /\ headers_get "content-encoding"
       (headers (snd (@encode Model.ports "bogus" Examples.bodiless))) = Some "bogus".
Proof.
  apply (@encode_without_body_keeps_header Model.ports Examples.bodiless "bogus").
  - reflexivity.
  - discriminate.
  - exact bogus_unsupported.
Defined.


Lemma replace_reads_body_strictly_witness :
  @replace Model.ports (PyBytes (b "hello")) (PyBytes (b "bye")) 0 Examples.bogus_encoded
  = (Raise ValueError, Examples.bogus_encoded)
  /\ @replace Model.ports (PyBytes (b "hello")) (PyBytes (b "bye")) 0
              (new_message None [("X-Test", "hello")])
     = (Ok 1, new_message None [("X-Test", "bye")])
  /\ fst (@replace Model.ports (PyBytes (b "hello")) (PyBytes (b "bye")) 0
                   Examples.empty_body)
     = Ok 1.
Proof.
  split; [|split].
  - apply (proj1 (@replace_reads_body_strictly Model.ports
                    (PyBytes (b "hello")) (PyBytes (b "bye")) 0%N
                    (b "hello") (b "bye") Examples.bogus_encoded eq_refl eq_refl)
                 [xff] "bogus").
    + apply reach_new.
    + reflexivity.
    + reflexivity.
    + discriminate.
    + exact bogus_unsupported.
  - apply (proj1 (proj2 (@replace_reads_body_strictly Model.ports
                    (PyBytes (b "hello")) (PyBytes (b "bye")) 0%N
                    (b "hello") (b "bye") (new_message None [("X-Test", "hello")])
                    eq_refl eq_refl))
                 [("X-Test", "bye")] 1); reflexivity.
  - destruct (proj2 (proj2 (@replace_reads_body_strictly Model.ports
                    (PyBytes (b "hello")) (PyBytes (b "bye")) 0%N
                    (b "hello") (b "bye") Examples.empty_body eq_refl eq_refl))
                 (snd (@get_content Model.ports true Examples.empty_body))
                 [("X-Test", "bye")] 1 eq_refl eq_refl) as [H _].
    rewrite H. reflexivity.
Defined.

(** ** Provenance of the cache entries *)

Section Provenance.

Context `{P : Ports}.

Hypothesis identity_is_identity : encodes_identity.

Lemma keeps_ret {A} (I : Message -> Prop) (a : A) : keeps I (ret a).
Proof. intros m Hm. exact Hm. Qed.

Lemma keeps_raise {A} (I : Message -> Prop) (e : exn) : keeps I (@raise A e).
Proof. intros m Hm. exact Hm. Qed.

Lemma keeps_gets {A} (I : Message -> Prop) (f : Message -> A) : keeps I (gets f).
Proof. intros m Hm. exact Hm. Qed.

Lemma keeps_bind {A B} (I : Message -> Prop) (c : M A) (k : A -> M B) :
  keeps I c -> (forall a, keeps I (k a)) -> keeps I (bind c k).
Proof.
  intros Hc Hk m Hm. unfold bind. specialize (Hc m Hm).
  destruct (c m) as [[a|e] m']; simpl in *; [apply Hk|]; assumption.
Qed.

Lemma keeps_sound_data (f : Message -> Message) :
  (forall m, _content_cache (f m) = _content_cache m) ->
  (forall m, _text_cache (f m) = _text_cache m) ->
  keeps message_sound (modify f).
Proof.
  intros Hc Ht m [Hmc Hmt]. unfold modify, message_sound. simpl.
  rewrite Hc, Ht. split; assumption.
Qed.

Lemma keeps_sound_content (c : CachedDecode bytes) :
  content_cache_sound c -> keeps message_sound (modify (with_content_cache c)).
Proof. intros Hc m [_ Ht]. split; assumption. Qed.

Lemma keeps_sound_text (c : CachedDecode text) :
  text_cache_sound c -> keeps message_sound (modify (with_text_cache c)).
Proof. intros Hc m [Hm _]. split; assumption. Qed.

Lemma decodes_to_plain (raw : bytes) (ce : option string) :
  truthy_str ce = false -> decodes_to raw ce raw.
Proof. intros H. unfold decodes_to. rewrite H. reflexivity. Qed.

Lemma get_content_sound (s : bool) : keeps message_sound (get_content s).
Proof.
  unfold get_content.
  apply keeps_bind; [apply keeps_gets|]. intros [raw|]; [|apply keeps_ret].
  apply keeps_bind; [apply keeps_gets|]. intros ce.
  apply keeps_bind; [apply keeps_gets|]. intros cache.
  apply keeps_bind; [|intros _; apply keeps_gets].
  destruct (negb _); [|apply keeps_ret].
  destruct (truthy_str ce) eqn:Ht.
  - pose proof Ht as Ht'. apply truthy_str_Some in Ht'.
    destruct Ht' as [e [-> Hne]].
    destruct (encoding_decode raw e) as [d|] eqn:Hd.
    + apply keeps_sound_content. exists raw, d. cbn.
      repeat split. unfold decodes_to. rewrite Ht. eauto.
    + destruct s; [apply keeps_raise|].
      apply keeps_sound_content. exists raw, raw. cbn.
      repeat split. eauto.
  - apply keeps_sound_content. exists raw, raw. cbn.
    repeat split. apply decodes_to_plain. assumption.
Qed.

Lemma set_content_length_sound : keeps message_sound set_content_length.
Proof.
  unfold set_content_length.
  apply keeps_bind; [apply keeps_gets|]. intros [r|].
  - apply keeps_sound_data; reflexivity.
  - apply keeps_raise.
Qed.

Lemma set_content_sound (v : option pyobj) : keeps message_sound (set_content v).
Proof.
  unfold set_content. destruct v as [[v|t]|].
  - apply keeps_bind; [apply keeps_gets|]. intros ce.
    apply keeps_bind; [apply keeps_gets|]. intros cache.
    apply keeps_bind.
    + destruct (negb _); [|apply keeps_ret].
      destruct (encoding_encode v (ce_or_identity ce)) as [x|] eqn:He.
      * apply keeps_sound_content. exists x, v. cbn. repeat split.
        unfold decodes_to. unfold ce_or_identity in He.
        destruct (truthy_str ce) eqn:Ht.
        -- apply truthy_str_Some in Ht. destruct Ht as [e [-> Hne]]. eauto.
        -- assert (Hi : encoding_encode v "identity" = Some x)
             by (destruct ce; assumption).
           rewrite identity_is_identity in Hi. congruence.
      * apply keeps_bind; [apply keeps_gets|]. intros h.
        destruct (headers_delitem "content-encoding" h); [|apply keeps_raise].
        apply keeps_bind; [apply keeps_sound_data; reflexivity|]. intros _.
        apply keeps_sound_content. exists v, v. cbn. repeat split.
    + intros _. apply keeps_bind; [apply keeps_sound_data; reflexivity|].
      intros _. apply set_content_length_sound.
  - apply keeps_raise.
  - apply keeps_sound_data; reflexivity.
Qed.

(** With a body and sound caches, what a read returns is a byte string, and
    the entry it leaves is marked one way or the other. *)
Lemma get_content_some (s : bool) (m m1 : Message) (raw : bytes) (c : option bytes) :
  message_sound m ->
  raw_content m = Some raw ->
  get_content s m = (Ok c, m1) ->
  exists d flag, c = Some d /\ strict (_content_cache m1) = Some flag.
Proof.
  intros Hm Hraw Hg.
  pose proof (get_content_sound s m Hm) as [Hs _]. rewrite Hg in Hs. simpl in Hs.
  destruct (get_content_post s m m1 raw c Hraw Hg)
    as (_ & _ & _ & He & _ & Hd & _).
  unfold content_cache_sound in Hs.
  destruct (strict (_content_cache m1)) as [flag|]; [|congruence].
  destruct Hs as (raw' & d & _ & Hd' & _).
  exists d, flag. split; congruence.
Qed.

Lemma get_text_sound (s : bool) : keeps message_sound (get_text s).
Proof.
  intros m Hm. unfold get_text. unfold bind at 1. unfold gets at 1.
  destruct (raw_content m) as [raw|] eqn:Hraw; [|exact Hm].
  unfold bind at 1. unfold gets at 1. unfold bind at 1.
  pose proof (get_content_sound s m Hm) as Hm1.
  destruct (get_content s m) as [[content|e] m1] eqn:Hg; [|exact Hm1].
  simpl in Hm1.
  destruct (get_content_some s m m1 raw content Hm Hraw Hg) as (d & flag & -> & Hflag).
  unfold bind at 1. unfold gets at 1.
  destruct (negb _); [|exact Hm1].
  unfold bind at 1. unfold bind at 1. unfold gets at 1. rewrite Hflag.
  unfold decode_text_of.
  destruct (encoding_decode_text d (_guess_encoding m)) as [t|].
  - unfold modify, gets. simpl. destruct Hm1 as [Hc _]. split; [exact Hc|].
    exists d, t. split; reflexivity.
  - destruct s; [exact Hm1|].
    unfold bind at 1.
    pose proof (get_content_sound true m1 Hm1) as Hm2.
    destruct (get_content true m1) as [[[c|]|e] m2]; simpl in Hm2;
      try exact Hm2.
    unfold modify, gets. simpl. destruct Hm2 as [Hc _]. split; [exact Hc|].
    eexists d, _. split; reflexivity.
Qed.

Lemma set_text_sound (v : option text) : keeps message_sound (set_text v).
Proof.
  unfold set_text. destruct v as [t|]; [|apply set_content_sound].
  apply keeps_bind; [apply keeps_gets|]. intros enc.
  apply keeps_bind; [apply keeps_gets|]. intros cache.
  apply keeps_bind.
  - destruct (negb _); [|apply keeps_ret].
    destruct (encoding_encode_text t enc) as [x|].
    + apply keeps_sound_text. exists x, t. split; reflexivity.
    + apply keeps_bind; [apply keeps_sound_data; reflexivity|]. intros _.
      destruct (utf8_encode_tolerant t) as [x|].
      * apply keeps_sound_text. exists x, t. split; reflexivity.
      * apply keeps_raise.
  - intros _. apply keeps_bind; [apply keeps_gets|]. intros e.
    apply set_content_sound.
Qed.

Lemma decode_sound (s : bool) : keeps message_sound (decode s).
Proof.
  unfold decode.
  apply keeps_bind; [apply get_content_sound|]. intros c.
  apply keeps_bind; [apply keeps_sound_data; reflexivity|]. intros _.
  apply keeps_sound_data; reflexivity.
Qed.

Lemma encode_sound (e : string) : keeps message_sound (encode e).
Proof.
  unfold encode.
  apply keeps_bind; [apply keeps_sound_data; reflexivity|]. intros _.
  apply keeps_bind; [apply keeps_gets|]. intros raw.
  apply keeps_bind; [apply set_content_sound|]. intros _.
  apply keeps_bind; [apply keeps_gets|]. intros present.
  destruct (negb present); [apply keeps_raise | apply keeps_ret].
Qed.

Lemma replace_sound (pattern repl : pyobj) (flags : N) :
  keeps message_sound (replace pattern repl flags).
Proof.
  unfold replace, as_pattern_bytes.
  apply keeps_bind.
  { destruct (pattern_bytes pattern); [apply keeps_ret | apply keeps_raise]. }
  intros pat. apply keeps_bind.
  { destruct (pattern_bytes repl); [apply keeps_ret | apply keeps_raise]. }
  intros rep.
  apply keeps_bind; [apply get_content_sound|]. intros c.
  apply keeps_bind.
  - destruct (truthy_bytes c); [|apply keeps_ret].
    apply keeps_bind; [apply get_content_sound|]. intros [subject|].
    + destruct (re_subn pat rep subject flags) as [[new n]|].
      * apply keeps_bind; [apply set_content_sound|]. intros _. apply keeps_ret.
      * apply keeps_raise.
    + apply keeps_raise.
  - intros n. apply keeps_bind; [apply keeps_gets|]. intros h.
    destruct (headers_replace pat rep flags h) as [[h' k]|].
    + apply keeps_bind; [apply keeps_sound_data; reflexivity|]. intros _.
      apply keeps_ret.
    + apply keeps_raise.
Qed.

(** Every state a caller can bring about has sound caches. *)
Lemma reachable_sound (m : Message) : reachable m -> message_sound m.
Proof.
  induction 1.
  - split; reflexivity.
  - exact IHreachable.
  - exact IHreachable.
  - apply get_content_sound; assumption.
  - apply set_content_sound; assumption.
  - apply get_text_sound; assumption.
  - apply set_text_sound; assumption.
  - apply decode_sound; assumption.
  - apply encode_sound; assumption.
  - apply replace_sound; assumption.
Qed.

End Provenance.

(** ** More on the content layer *)

Section ContentReads.

Context `{P : Ports}.

(** What [get_text] leaves alone, whether it returns or raises. *)
Lemma get_text_frame_of (s : bool) (m m' : Message) (r : result (option text)) :
  get_text s m = (r, m') ->
  raw_content m' = raw_content m /\ headers m' = headers m.
Proof.
  unfold get_text. unfold bind at 1. unfold gets at 1.
  destruct (raw_content m) as [raw|] eqn:Hraw.
  2:{ intros H. inversion H; subst. auto. }
  unfold bind at 1. unfold gets at 1. unfold bind at 1.
  destruct (get_content_frame s m) as (Hr & Hh & _).
  destruct (get_content s m) as [[content|e] m1]; simpl in Hr, Hh.
  2:{ intros H. inversion H; subst. split; congruence. }
  unfold bind at 1. unfold gets at 1.
  destruct (negb _).
  2:{ steps. intros H. inversion H; subst. split; congruence. }
  unfold bind at 1. unfold bind at 1. unfold gets at 1.
  destruct (decode_text_of content _).
  - steps. intros H. inversion H; subst. fields. split; congruence.
  - destruct s.
    + steps. intros H. inversion H; subst. split; congruence.
    + unfold bind at 1.
      destruct (get_content_frame true m1) as (Hr2 & Hh2 & _).
      destruct (get_content true m1) as [[[c|]|e] m2]; simpl in Hr2, Hh2;
        steps; intros H; inversion H; subst; fields; split; congruence.
Qed.

Lemma get_text_frame (s : bool) (m : Message) :
  raw_content (snd (get_text s m)) = raw_content m
  /\ headers (snd (get_text s m)) = headers m.
Proof.
  destruct (get_text s m) as [r m'] eqn:H.
  exact (get_text_frame_of s m m' r H).
Qed.

(** X1: reading never writes the data.  Whatever the state and whether the
    call returns or raises, [get_content] and [get_text] leave the raw body
    and the headers exactly as they were; only the caches may change. *)
Theorem reads_keep_body_and_headers (s : bool) (m : Message) :
  raw_content (snd (get_content s m)) = raw_content m
  /\ headers (snd (get_content s m)) = headers m
  /\ raw_content (snd (get_text s m)) = raw_content m
  /\ headers (snd (get_text s m)) = headers m.
Proof.
  destruct (get_content_frame s m) as (Hr & Hh & _).
  destruct (get_text_frame s m) as (Hr' & Hh').
  auto.
Qed.


(** X4: a lenient [get_content] never raises, whatever the state, the
    headers and the codec. *)
Theorem get_content_lenient_returns (m : Message) :
  exists c m', get_content false m = (Ok c, m').
Proof.
  unfold get_content. steps.
  destruct (raw_content m) as [raw|]; [|eauto].
  destruct (negb _); fields; [|eauto].
  destruct (truthy_str _); fields; [|eauto].
  destruct (encoding_decode raw _); fields; eauto.
Qed.

(** A strict read raises only [ValueError], only under a non-empty
    Content-Encoding, and then leaves the message as it was. *)
Lemma get_content_raise_cases (s : bool) (m m1 : Message) (e : exn) :
  get_content s m = (Raise e, m1) ->
  e = ValueError /\ m1 = m /\ s = true
  /\ truthy_str (headers_get "content-encoding" (headers m)) = true.
Proof.
  unfold get_content. steps.
  destruct (raw_content m) as [raw|]; [|discriminate].
  destruct (negb _); fields; [|discriminate].
  destruct (truthy_str _); fields; [|discriminate].
  destruct (encoding_decode raw _); fields; [discriminate|].
  destruct s; fields; [|discriminate].
  intros H. inversion H; subst. auto.
Qed.

End ContentReads.

Section ContentCoherence.

Context `{P : Ports}.

(** A read of a message with sound caches returns a decoding of the body
    under the header, or, leniently, the body the decoder refused. *)
Lemma get_content_coherent (s : bool) (m m1 : Message) (raw : bytes) (c : option bytes) :
  message_sound m ->
  raw_content m = Some raw ->
  get_content s m = (Ok c, m1) ->
  exists d,
    c = Some d
    /\ (decodes_to raw (headers_get "content-encoding" (headers m)) d
        \/ (s = false /\ d = raw
            /\ exists e, headers_get "content-encoding" (headers m) = Some e
                         /\ e <> "" /\ encoding_decode raw e = None)).
Proof.
  intros Hm Hraw Hg.
  pose proof (get_content_sound s m Hm) as [Hs _]. rewrite Hg in Hs. simpl in Hs.
  destruct (get_content_post s m m1 raw c Hraw Hg)
    as (_ & _ & _ & He & Henc & Hd & Hstrict).
  unfold content_cache_sound in Hs.
  destruct (strict (_content_cache m1)) as [flag|] eqn:Hflag; [|congruence].
  destruct Hs as (raw' & d & He' & Hd' & Hrel).
  assert (raw' = raw) by congruence. subst raw'.
  exists d. split; [congruence|].
  destruct flag.
  - left. rewrite <- Henc. exact Hrel.
  - right. destruct Hrel as (-> & e & Hce & Hne & Hdec).
    destruct s; [specialize (Hstrict eq_refl); congruence|].
    repeat split. exists e. rewrite <- Henc. auto.
Qed.

(** X3: the cache never serves a stale value.  In every state a caller can
    bring about (the identity codec being the identity), what [get_content]
    returns for a message with a body is a decoding of the current raw body
    under the current Content-Encoding header: the body itself when the
    header is absent or empty, else what the decoder makes of it, or bytes
    that the encoder turned into it; a lenient call may instead pass
    through a body the decoder refuses. *)
Theorem content_is_decoding_of_body
        (s : bool) (m m1 : Message) (raw : bytes) (c : option bytes) :
  encodes_identity ->
  reachable m ->
  raw_content m = Some raw ->
  get_content s m = (Ok c, m1) ->
  exists d,
    c = Some d
    /\ (decodes_to raw (headers_get "content-encoding" (headers m)) d
        \/ (s = false /\ d = raw
            /\ exists e, headers_get "content-encoding" (headers m) = Some e
                         /\ e <> "" /\ encoding_decode raw e = None)).
Proof.
  intros Hid Hr Hraw Hg.
  exact (get_content_coherent s m m1 raw c (reachable_sound Hid m Hr) Hraw Hg).
Qed.

(** With no encoding in force, a read returns the body. *)
Lemma get_content_no_encoding (s : bool) (m : Message) (raw : bytes) :
  message_sound m ->
  raw_content m = Some raw ->
  truthy_str (headers_get "content-encoding" (headers m)) = false ->
  exists m1, get_content s m = (Ok (Some raw), m1).
Proof.
  intros Hm Hraw Hce.
  destruct (get_content s m) as [[c|e] m1] eqn:Hg.
  - destruct (get_content_coherent s m m1 raw c Hm Hraw Hg) as (d & -> & Hrel).
    exists m1. destruct Hrel as [Hrel | (_ & -> & _)]; [|reflexivity].
    unfold decodes_to in Hrel. rewrite Hce in Hrel. subst d. reflexivity.
  - destruct (get_content_raise_cases s m m1 e Hg) as (_ & _ & _ & Ht). congruence.
Qed.

(** X9: without a Content-Encoding header, or with an empty one, the
    content is the raw body.  In every state a caller can bring about,
    [get_content] on such a message returns [raw_content] itself, in both
    modes and without raising. *)
Theorem content_is_body_without_encoding (s : bool) (m : Message) (raw : bytes) :
  encodes_identity ->
  reachable m ->
  raw_content m = Some raw ->
  headers_get "content-encoding" (headers m) = None
  \/ headers_get "content-encoding" (headers m) = Some "" ->
  exists m1, get_content s m = (Ok (Some raw), m1).
Proof.
  intros Hid Hr Hraw Hce.
  apply (get_content_no_encoding s m raw (reachable_sound Hid m Hr) Hraw).
  destruct Hce as [-> | ->]; reflexivity.
Qed.

End ContentCoherence.

(** ** More on writing the content, [decode] and [encode] *)

Section HeaderSetTwice.

Lemma filter_idem {A} (p : A -> bool) (l : list A) :
  filter p (filter p l) = filter p l.
Proof.
  induction l as [|x l IH]; simpl; [reflexivity|].
  destruct (p x) eqn:E; simpl; [rewrite E, IH|]; auto.
Qed.

Lemma headers_replace_first_idem (name value : string) (h : Headers) :
  headers_replace_first name value (headers_replace_first name value h)
  = headers_replace_first name value h.
Proof.
  induction h as [|f h IH]; simpl; [reflexivity|].
  destruct (same_name name f) eqn:E; simpl.
  - rewrite same_name_fst, E. simpl. rewrite filter_idem. reflexivity.
  - rewrite E, IH. reflexivity.
Qed.

Lemma headers_replace_first_fresh (name value : string) (h : Headers) :
  headers_contains name h = false ->
  headers_replace_first name value (h ++ [(name, value)])%list
  = (h ++ [(name, value)])%list.
Proof.
  unfold headers_contains. induction h as [|f h IH]; simpl.
  - intros _. unfold same_name at 1. simpl. rewrite py_eq_refl. reflexivity.
  - intros H. apply orb_false_iff in H. destruct H as [Hf Hh].
    rewrite Hf, (IH Hh). reflexivity.
Qed.

(** Assigning a header the value it was just assigned changes nothing. *)
Lemma headers_setitem_idem (name value : string) (h : Headers) :
  headers_setitem name value (headers_setitem name value h)
  = headers_setitem name value h.
Proof.
  unfold headers_setitem at 1. rewrite headers_contains_setitem.
  unfold headers_setitem. destruct (headers_contains name h) eqn:E.
  - apply headers_replace_first_idem.
  - apply headers_replace_first_fresh. assumption.
Qed.

End HeaderSetTwice.

Section ContentWriteMore.

Context `{P : Ports}.

(** Where the headers of a returning [set_content] come from: the
    Content-Length assignment, on top of the old headers or of the old
    headers without Content-Encoding. *)
Lemma set_content_shape (m m' : Message) (v : bytes) :
  set_content (Some (PyBytes v)) m = (Ok tt, m') ->
  exists h0 r,
    raw_content m' = Some r
    /\ headers m' = headers_setitem "content-length" (str_of_nat (List.length r)) h0
    /\ (h0 = headers m
        \/ headers_delitem "content-encoding" (headers m) = Some h0).
Proof.
  unfold set_content, set_content_length. steps.
  destruct (negb _); fields.
  - destruct (encoding_encode v _) as [x|]; fields.
    + intros H. inversion H; subst m'. fields. eauto 6.
    + destruct (headers_delitem _ _) as [h'|] eqn:Hdel; fields; [|discriminate].
      intros H. inversion H; subst m'. fields. eauto 6.
  - destruct (encoded (_content_cache m)) as [r|]; [|discriminate].
    intros H. inversion H; subst m'. fields. eauto 6.
Qed.

(** X5: what was written is what is read.  After a returning
    [set_content(v)], in any state and whatever the codec does,
    [get_content] returns [v] in both modes, from the cache, and changes
    nothing. *)
Theorem set_content_then_get_content (s : bool) (m m' : Message) (v : bytes) :
  set_content (Some (PyBytes v)) m = (Ok tt, m') ->
  get_content s m' = (Ok (Some v), m').
Proof. exact (get_content_after_set s m m' v). Qed.

(** X6: [set_content] is idempotent.  Writing the same bytes a second time
    returns and leaves the message exactly as the first write left it:
    body, headers and caches. *)
Theorem set_content_twice (m m1 : Message) (v : bytes) :
  set_content (Some (PyBytes v)) m = (Ok tt, m1) ->
  set_content (Some (PyBytes v)) m1 = (Ok tt, m1).
Proof.
  intros H.
  destruct (set_content_post m m1 v H)
    as ((r & Hr & He & _) & Hd & Hs & Henc & _).
  destruct (set_content_shape m m1 v H) as (h0 & r' & Hr' & Hh & _).
  assert (r' = r) by congruence. subst r'.
  unfold set_content, set_content_length. steps.
  rewrite <- Henc, Hd, Hs, !py_eq_refl. fields. rewrite He. fields.
  rewrite Hh, headers_setitem_idem, <- Hh.
  destruct m1; simpl in *; subst; reflexivity.
Qed.

(** X7: writing back the content just read does not re-encode.  After a
    strict [get_content] returned [d], [set_content(d)] returns, the raw
    body is byte for byte what it was, the content cache is untouched and
    the only change is the Content-Length assignment; the codec is not
    consulted, so this holds even where encoding would not invert
    decoding. *)
Theorem content_write_back (m m1 : Message) (raw d : bytes) :
  raw_content m = Some raw ->
  get_content true m = (Ok (Some d), m1) ->
  set_content (Some (PyBytes d)) m1 =
  (Ok tt,
   with_headers
     (headers_setitem "content-length" (str_of_nat (List.length raw)) (headers m)) m1).
Proof.
  intros Hraw Hg.
  destruct (get_content_post true m m1 raw (Some d) Hraw Hg)
    as (Hr & Hh & _ & He & Henc & Hd & Hs).
  specialize (Hs eq_refl).
  unfold set_content, set_content_length. steps.
  rewrite Hh, <- Henc, Hd, Hs, !py_eq_refl. fields. rewrite He. fields.
  destruct m1; simpl in *; subst; reflexivity.
Qed.

End ContentWriteMore.

Section FacadeMore.

Context `{P : Ports}.

(** X8: [decode] under a Content-Encoding the codec rejects.  On a
    reachable message with a body, the strict call raises [ValueError] and
    leaves the message as it was, header included; the lenient call
    returns, keeps the raw body and drops the header. *)
Theorem decode_unsupported_encoding (m : Message) (raw : bytes) (ce : string) :
  reachable m ->
  raw_content m = Some raw ->
  headers_get "content-encoding" (headers m) = Some ce ->
  ce <> "" ->
  unsupported ce ->
  decode true m = (Raise ValueError, m)
  /\ exists m',
      decode false m = (Ok tt, m')
      /\ raw_content m' = Some raw
      /\ headers m' = headers_pop "content-encoding" (headers m)
      /\ headers_get "content-encoding" (headers m') = None.
Proof.
  intros Hr Hraw Hce Hne Hu. split.
  - unfold decode. unfold bind at 1.
    rewrite (get_content_strict_raises m raw ce (reachable_ok m Hr) Hraw Hce Hne Hu).
    reflexivity.
  - unfold decode. unfold bind at 1.
    rewrite (get_content_passes_through m raw ce Hr Hraw Hce Hne Hu).
    steps. eexists. split; [reflexivity|]. fields.
    repeat split. apply headers_get_pop.
Qed.

(** X10: without a Content-Encoding header [decode] takes no action.  In
    every state a caller can bring about, it returns in both modes and
    leaves the raw body and the headers as they were. *)
Theorem decode_without_encoding (s : bool) (m : Message) :
  encodes_identity ->
  reachable m ->
  headers_get "content-encoding" (headers m) = None ->
  exists m',
    decode s m = (Ok tt, m')
    /\ raw_content m' = raw_content m
    /\ headers m' = headers m.
Proof.
  intros Hid Hr Hce.
  destruct (raw_content m) as [raw|] eqn:Hraw.
  - destruct (get_content_no_encoding s m raw (reachable_sound Hid m Hr) Hraw)
      as [m1 Hg]; [rewrite Hce; reflexivity|].
    destruct (get_content_frame s m) as (_ & Hh & _). rewrite Hg in Hh. simpl in Hh.
    unfold decode. unfold bind at 1. rewrite Hg. steps.
    eexists. split; [reflexivity|]. fields. split; [reflexivity|].
    rewrite Hh. apply headers_pop_absent. assumption.
  - unfold decode, get_content. steps. rewrite Hraw. fields.
    eexists. split; [reflexivity|]. fields. split; [reflexivity|].
    apply headers_pop_absent. assumption.
Qed.

(** X11: [decode] followed by [encode] with the scheme the header named
    restores the wire bytes.  After a strict [decode] of a reachable
    message whose Content-Encoding was [e], [encode(e)] returns and the raw
    body is byte for byte the original one, taken from the cache rather
    than encoded anew; the header reads [e] again and Content-Length is
    the original length. *)
Theorem decode_then_encode_restores (m m1 : Message) (raw : bytes) (e : string) :
  encodes_identity ->
  reachable m ->
  raw_content m = Some raw ->
  headers_get "content-encoding" (headers m) = Some e ->
  decode true m = (Ok tt, m1) ->
  exists m2,
    encode e m1 = (Ok tt, m2)
    /\ raw_content m2 = Some raw
    /\ headers_get "content-encoding" (headers m2) = Some e
    /\ headers_get "content-length" (headers m2) = Some (str_of_nat (List.length raw)).
Proof.
  intros Hid Hr Hraw Hce Hdec.
  unfold decode in Hdec. unfold bind at 1 in Hdec.
  destruct (get_content true m) as [[c|x] m'] eqn:Hg; [|discriminate].
  destruct (get_content_some true m m' raw c (reachable_sound Hid m Hr) Hraw Hg)
    as (d & flag & -> & _).
  destruct (get_content_post true m m' raw (Some d) Hraw Hg)
    as (_ & Hh & _ & He & Henc & Hd & Hs).
  specialize (Hs eq_refl).
  revert Hdec. steps. intros Hdec. inversion Hdec; subst m1. clear Hdec.
  unfold encode, set_content, set_content_length. steps.
  rewrite headers_get_setitem, Henc, Hce, Hd, Hs, !py_eq_refl. fields.
  rewrite He. fields.
  assert (Hpresent : headers_contains "content-encoding"
            (headers_setitem "content-length" (str_of_nat (List.length raw))
               (headers_setitem "content-encoding" e
                  (headers_pop "content-encoding" (headers m')))) = true).
  { eapply headers_get_Some_contains.
    rewrite headers_get_setitem_other by apply lower_ce_cl.
    apply headers_get_setitem. }
  rewrite Hpresent. fields.
  eexists. split; [reflexivity|]. fields. repeat split.
  - rewrite headers_get_setitem_other by apply lower_ce_cl.
    apply headers_get_setitem.
  - apply headers_get_setitem.
Qed.

(** X12: a returning [encode(e)] treats the raw body as the content.  The
    Content-Encoding header reads [e], Content-Length is the length of the
    new raw body, and reading the content gives back the bytes that were
    the raw body before the call: a body that was already encoded is
    encoded once more, not decoded first. *)
Theorem encode_takes_raw_as_content (s : bool) (m m' : Message) (raw : bytes) (e : string) :
  raw_content m = Some raw ->
  encode e m = (Ok tt, m') ->
  headers_get "content-encoding" (headers m') = Some e
  /\ get_content s m' = (Ok (Some raw), m')
  /\ exists r,
      raw_content m' = Some r
      /\ headers_get "content-length" (headers m') = Some (str_of_nat (List.length r)).
Proof.
  intros Hraw. unfold encode. unfold bind at 1. unfold modify at 1.
  set (m0 := with_headers (headers_setitem "content-encoding" e (headers m)) m).
  unfold bind at 1. unfold gets at 1.
  replace (raw_content m0) with (Some raw) by (symmetry; exact Hraw).
  cbn [option_map]. unfold bind at 1.
  destruct (set_content (Some (PyBytes raw)) m0) as [[[]|x] m1] eqn:Hset;
    [|discriminate].
  unfold bind at 1. unfold gets at 1.
  destruct (headers_contains "content-encoding" (headers m1)) eqn:Hpresent;
    cbn [negb]; [|discriminate].
  unfold ret. intros H. inversion H; subst m'. clear H.
  destruct (set_content_shape m0 m1 raw Hset) as (h0 & r & Hr & Hh & Hfrom).
  destruct (set_content_post m0 m1 raw Hset) as ((r' & Hr' & _ & Hl) & _).
  split; [|split].
  - destruct Hfrom as [-> | Hdel].
    + rewrite Hh, headers_get_setitem_other by apply lower_ce_cl.
      apply headers_get_setitem.
    + exfalso.
      assert (Hnone : headers_get "content-encoding" (headers m1) = None).
      { rewrite Hh, headers_get_setitem_other by apply lower_ce_cl.
        eapply headers_get_delitem. eassumption. }
      apply headers_get_None in Hnone. congruence.
  - exact (get_content_after_set s m0 m1 raw Hset).
  - exists r'. auto.
Qed.

End FacadeMore.

(** ** More on the text layer *)

Section TextMore.

Context `{P : Ports}.

(** The guess looks at the Content-Type header only. *)
Lemma guess_of_content_type (m1 m2 : Message) :
  headers_get "content-type" (headers m1) = headers_get "content-type" (headers m2) ->
  _guess_encoding m1 = _guess_encoding m2.
Proof.
  intros H. unfold _guess_encoding, _get_content_type_charset, headers_get_default.
  rewrite H. reflexivity.
Qed.

Lemma guess_of_headers (m1 m2 : Message) :
  headers m1 = headers m2 -> _guess_encoding m1 = _guess_encoding m2.
Proof. intros H. apply guess_of_content_type. rewrite H. reflexivity. Qed.

(** With sound caches, a strict read that follows a read finds the entry
    that read left: it returns the same value and changes nothing. *)
Lemma get_content_strict_after (m1 m2 : Message) (raw : bytes) (c2 : option bytes) :
  message_sound m1 ->
  raw_content m1 = Some raw ->
  encoded (_content_cache m1) = Some raw ->
  encoding (_content_cache m1) = headers_get "content-encoding" (headers m1) ->
  get_content true m1 = (Ok c2, m2) ->
  c2 = decoded (_content_cache m1) /\ m2 = m1.
Proof.
  intros [Hs _] Hraw He Henc Hg.
  unfold content_cache_sound in Hs.
  destruct (strict (_content_cache m1)) as [[|]|] eqn:Hflag.
  - rewrite (get_content_hit true m1 raw Hraw He Henc) in Hg
      by (left; rewrite Hflag; reflexivity).
    inversion Hg; subst. auto.
  - exfalso. destruct Hs as (raw' & d & He' & _ & _ & e & Hce & Hne & Hdec).
    assert (raw' = raw) by congruence. subst raw'.
    revert Hg. unfold get_content. steps.
    rewrite Hraw, <- Henc, Hflag, Hce. fields.
    rewrite andb_false_r. fields. rewrite (truthy_str_named e Hne), Hdec.
    discriminate.
  - congruence.
Qed.

(** The state a returning [get_text] leaves, for a strict call in any
    state and for a lenient call with sound caches: the text entry pairs
    the content, as a further read returns it, with the text returned. *)
Lemma get_text_post (s : bool) (m m' : Message) (raw : bytes) (t : option text) :
  s = true \/ message_sound m ->
  raw_content m = Some raw ->
  get_text s m = (Ok t, m') ->
  raw_content m' = Some raw
  /\ headers m' = headers m
  /\ exists c,
      get_content s m' = (Ok c, m')
      /\ encoded (_text_cache m') = c
      /\ encoding (_text_cache m') = Some (_guess_encoding m)
      /\ decoded (_text_cache m') = t
      /\ (truthy_flag (strict (_text_cache m')) = true \/ s = false)
      /\ (s = true ->
          strict (_content_cache m') = Some true
          /\ encoded (_content_cache m') = Some raw
          /\ decoded (_content_cache m') = c
          /\ encoding (_content_cache m') = headers_get "content-encoding" (headers m)).
Proof.
  intros Hmode Hraw Hget.
  destruct (get_text_frame_of s m m' (Ok t) Hget) as [Hr' Hh'].
  split; [congruence|]. split; [assumption|].
  revert Hget. unfold get_text. unfold bind at 1. unfold gets at 1. rewrite Hraw.
  unfold bind at 1. unfold gets at 1. unfold bind at 1.
  destruct (get_content s m) as [[c|x] m1] eqn:Hg; [|discriminate].
  destruct (get_content_post s m m1 raw c Hraw Hg)
    as (Hr1 & Hh1 & Htc1 & He1 & Henc1 & Hd1 & Hs1).
  pose proof (get_content_again s m m1 c Hg) as Hagain.
  unfold bind at 1. unfold gets at 1.
  destruct (_ && _ && _) eqn:Hc; cbn [negb].
  - (* the text cache answers *)
    steps. intros H. inversion H; subst m' t. clear H.
    apply andb_true_iff in Hc. destruct Hc as [Hc Henc].
    apply andb_true_iff in Hc. destruct Hc as [Hec Hst].
    apply (proj1 (py_eq_true _ _)) in Henc.
    apply (proj1 (py_eq_true _ _)) in Hec.
    exists c. repeat split; try assumption; auto.
    destruct s; [left | right; reflexivity].
    rewrite orb_false_r in Hst. assumption.
  - unfold bind at 1. unfold bind at 1. unfold gets at 1.
    destruct (decode_text_of c (_guess_encoding m)) as [t'|] eqn:Hdt.
    + (* decoded under the guessed charset *)
      steps. intros H. inversion H; subst m' t. clear H. fields.
      exists c. split.
      * rewrite get_content_text_cache, Hagain. reflexivity.
      * repeat split; auto.
        destruct s; [left | right; reflexivity].
        rewrite (Hs1 eq_refl). reflexivity.
    + (* the lenient fallback *)
      destruct s; [discriminate|].
      destruct Hmode as [Hmode | Hsound]; [discriminate|].
      unfold bind at 1.
      destruct (get_content true m1) as [[[c2|]|x] m2] eqn:Hg2; try discriminate.
      pose proof (get_content_sound false m Hsound) as Hsound1.
      rewrite Hg in Hsound1. simpl in Hsound1.
      assert (Henc1' : encoding (_content_cache m1)
                       = headers_get "content-encoding" (headers m1))
        by (rewrite Hh1; assumption).
      destruct (get_content_strict_after m1 m2 raw (Some c2) Hsound1 Hr1 He1 Henc1' Hg2)
        as [Hc2 ->].
      steps. intros H. inversion H; subst m' t. clear H. fields.
      exists c. split.
      * rewrite get_content_text_cache, Hagain. reflexivity.
      * repeat split; auto; try discriminate.
Qed.


(** Writing the encoded side of a strict text entry, then reading the
    text: the entry answers. *)
Lemma text_entry_round_trip (s : bool) (ma : Message) (cb : bytes) (t : text) :
  message_ok ma ->
  encodes_identity ->
  _text_cache ma = mkCachedDecode (Some cb) (Some (_guess_encoding ma)) (Some true) (Some t) ->
  exists m',
    set_content (Some (PyBytes cb)) ma = (Ok tt, m')
    /\ get_text s m' = (Ok (Some t), m')
    /\ _guess_encoding m' = _guess_encoding ma.
Proof.
  intros Hok Hid Htc.
  destruct (set_content_returns ma cb Hok Hid) as [m' Hset].
  destruct (set_content_post ma m' cb Hset)
    as ((r & Hraw & _ & _) & _ & _ & _ & Htc' & Hother).
  assert (Hguess : _guess_encoding m' = _guess_encoding ma).
  { apply guess_of_content_type.
    exact (Hother "content-type" lower_ct_ce lower_ct_cl). }
  exists m'. split; [exact Hset|]. split; [|exact Hguess].
  unfold get_text. unfold bind at 1. unfold gets at 1. rewrite Hraw.
  unfold bind at 1. unfold gets at 1. unfold bind at 1.
  rewrite (get_content_after_set s ma m' cb Hset).
  unfold bind at 1. unfold gets at 1.
  rewrite Htc', Htc, Hguess. fields. rewrite !py_eq_refl. steps.
  rewrite Htc', Htc. reflexivity.
Qed.

(** X14: the text written is the text read.  In every state a caller can
    bring about, when the guessed charset can encode [t], [set_text(t)]
    returns and [get_text] afterwards returns [t], in both modes, from the
    cache and without changing the message; the guessed charset is the
    same before and after. *)
Theorem set_text_then_get_text (s : bool) (m : Message) (t : text) (eb : bytes) :
  encodes_identity ->
  reachable m ->
  encoding_encode_text t (_guess_encoding m) = Some eb ->
  exists m',
    set_text (Some t) m = (Ok tt, m')
    /\ get_text s m' = (Ok (Some t), m')
    /\ _guess_encoding m' = _guess_encoding m.
Proof.
  intros Hid Hr Henc.
  pose proof (reachable_ok m Hr) as Hok.
  pose proof (reachable_sound Hid m Hr) as [_ Hts].
  unfold set_text. unfold bind at 1. unfold gets at 1.
  unfold bind at 1. unfold gets at 1. unfold bind at 1.
  destruct (_ && _ && _) eqn:Hc; cbn [negb].
  - (* the cache already holds the text *)
    apply andb_true_iff in Hc. destruct Hc as [Hc Hst].
    apply andb_true_iff in Hc. destruct Hc as [Hd He].
    apply (proj1 (py_eq_true _ _)) in Hd.
    apply (proj1 (py_eq_true _ _)) in He.
    apply truthy_flag_true in Hst.
    unfold text_cache_sound in Hts. rewrite Hst in Hts.
    destruct Hts as (cb & t' & Hcb & _).
    assert (Htc : _text_cache m
                  = mkCachedDecode (Some cb) (Some (_guess_encoding m)) (Some true) (Some t)).
    { destruct (_text_cache m); simpl in *; congruence. }
    destruct (text_entry_round_trip s m cb t Hok Hid Htc) as (m' & Hset & Hget & Hg).
    exists m'. steps. rewrite Hcb. cbn [option_map]. auto.
  - rewrite Henc. steps.
    set (ma := with_text_cache
                 (mkCachedDecode (Some eb) (Some (_guess_encoding m)) (Some true) (Some t)) m).
    destruct (text_entry_round_trip s ma eb t Hok Hid eq_refl) as (m' & Hset & Hget & Hg).
    exists m'. auto.
Qed.

(** X15: writing back the text just read does not re-encode.  After a
    strict [get_text] returned [t] on a reachable message, [set_text(t)]
    returns, the raw body is byte for byte what it was, both caches are
    untouched and the only change is the Content-Length assignment;
    neither the charset codec nor the content codec is consulted. *)
Theorem text_write_back (m m1 : Message) (raw : bytes) (t : text) :
  encodes_identity ->
  reachable m ->
  raw_content m = Some raw ->
  get_text true m = (Ok (Some t), m1) ->
  set_text (Some t) m1 =
  (Ok tt,
   with_headers
     (headers_setitem "content-length" (str_of_nat (List.length raw)) (headers m)) m1).
Proof.
  intros Hid Hr Hraw Hget.
  pose proof (get_text_sound true m (reachable_sound Hid m Hr)) as Hsound1.
  rewrite Hget in Hsound1. simpl in Hsound1.
  destruct (get_text_post true m m1 raw (Some t) (or_introl eq_refl) Hraw Hget)
    as (Hr1 & Hh1 & c & Hg & He & Henc & Hd & Hst & Hcc).
  destruct (Hcc eq_refl) as (Hcs & Hce & Hcd & Hcenc).
  destruct Hst as [Hst | Hst]; [|discriminate].
  destruct (get_content_some true m1 m1 raw c Hsound1 Hr1 Hg) as (d & _ & -> & _).
  unfold set_text. unfold bind at 1. unfold gets at 1.
  unfold bind at 1. unfold gets at 1. unfold bind at 1.
  rewrite Hd, Henc, (guess_of_headers m1 m Hh1), !py_eq_refl, Hst.
  cbn [andb negb]. unfold ret at 1. unfold bind at 1. unfold gets at 1.
  rewrite He. cbn [option_map].
  unfold set_content, set_content_length. steps.
  rewrite Hh1, <- Hcenc, Hcd, Hcs, !py_eq_refl. fields. rewrite Hce. fields.
  destruct m1; simpl in *; subst; reflexivity.
Qed.

(** A lenient read agrees with a strict read that returns. *)
Lemma lenient_read_agrees (m m1 : Message) (c : option bytes) :
  message_sound m ->
  get_content true m = (Ok c, m1) ->
  get_content false m = (Ok c, m1).
Proof.
  intros [Hs _]. unfold get_content. steps.
  destruct (raw_content m) as [raw|] eqn:Hraw; [|auto].
  rewrite !orb_false_r, orb_true_r, andb_true_r.
  destruct (encoded (_content_cache m) == Some raw) eqn:He; cbn [andb negb].
  - destruct (encoding (_content_cache m)
              == headers_get "content-encoding" (headers m)) eqn:Henc;
      [|rewrite andb_false_r; cbn [negb]].
    + destruct (truthy_flag (strict (_content_cache m))) eqn:Hflag; cbn [andb negb];
        [auto|].
      (* a lenient entry matches: the strict read would have raised *)
      apply (proj1 (py_eq_true _ _)) in He. apply (proj1 (py_eq_true _ _)) in Henc.
      unfold content_cache_sound in Hs.
      destruct (strict (_content_cache m)) as [[|]|]; [discriminate| |congruence].
      destruct Hs as (raw' & d & He' & _ & _ & e & Hce & Hne & Hdec).
      assert (raw' = raw) by congruence. subst raw'.
      rewrite <- Henc, Hce, (truthy_str_named e Hne), Hdec. discriminate.
    + destruct (truthy_str _); [|auto].
      destruct (encoding_decode raw _); [auto | discriminate].
  - destruct (truthy_str _); [|auto].
    destruct (encoding_decode raw _); [auto | discriminate].
Qed.

(** X16: a lenient read agrees with a strict read that returns.  In every
    state a caller can bring about, when [get_content] with [strict=True]
    returns, the call with [strict=False] returns the same content and
    leaves the same state. *)
Theorem lenient_content_agrees_with_strict (m m1 : Message) (c : option bytes) :
  encodes_identity ->
  reachable m ->
  get_content true m = (Ok c, m1) ->
  get_content false m = (Ok c, m1).
Proof.
  intros Hid Hr. exact (lenient_read_agrees m m1 c (reachable_sound Hid m Hr)).
Qed.

(** X17: a lenient [get_text] raises only when the content cannot be read
    strictly.  In every state a caller can bring about, when the strict
    [get_content] returns, [get_text] with [strict=False] returns too,
    whatever the charset codec makes of the content. *)
Theorem get_text_lenient_returns (m m1 : Message) (c : option bytes) :
  encodes_identity ->
  reachable m ->
  get_content true m = (Ok c, m1) ->
  exists t m', get_text false m = (Ok t, m').
Proof.
  intros Hid Hr Hg.
  pose proof (reachable_sound Hid m Hr) as Hsound.
  unfold get_text. unfold bind at 1. unfold gets at 1.
  destruct (raw_content m) as [raw|] eqn:Hraw; [|unfold ret; eauto].
  unfold bind at 1. unfold gets at 1. unfold bind at 1.
  rewrite (lenient_read_agrees m m1 c Hsound Hg).
  destruct (get_content_some true m m1 raw c Hsound Hraw Hg) as (d & _ & -> & _).
  unfold bind at 1. unfold gets at 1.
  destruct (negb _); [|steps; eauto].
  unfold bind at 1. unfold bind at 1. unfold gets at 1.
  destruct (decode_text_of (Some d) (_guess_encoding m)); [steps; eauto|].
  unfold bind at 1. rewrite (get_content_again true m m1 (Some d) Hg).
  steps. eauto.
Qed.

End TextMore.

(** ** More concrete runs *)


Lemma content_is_decoding_of_body_witness :
  exists d,
    Some (b "ab") = Some d
    /\ (@decodes_to Model.ports (b "6162") (Some "hex") d
        \/ (true = false /\ d = b "6162"
            /\ exists e, Some "hex" = Some e /\ e <> ""
                         /\ @encoding_decode Model.ports (b "6162") e = None)).
Proof.
  apply (@content_is_decoding_of_body Model.ports true Examples.hex_encoded
           (snd (@get_content Model.ports true Examples.hex_encoded))
           (b "6162") (Some (b "ab"))).
  - exact model_encodes_identity.
  - apply reach_new.
  - reflexivity.
  - reflexivity.
Defined.

Lemma set_content_then_get_content_witness :
  let m' := snd (@set_content Model.ports (Some (PyBytes (b "ab"))) Examples.hex_encoded) in
  @get_content Model.ports true m' = (Ok (Some (b "ab")), m').
Proof.
  apply (@set_content_then_get_content Model.ports true Examples.hex_encoded).
  reflexivity.
Defined.

Lemma set_content_twice_witness :
  let m1 := snd (@set_content Model.ports (Some (PyBytes (b "ab"))) Examples.hex_encoded) in
  @set_content Model.ports (Some (PyBytes (b "ab"))) m1 = (Ok tt, m1).
Proof.
  apply (@set_content_twice Model.ports Examples.hex_encoded).
  reflexivity.
Defined.

Lemma content_write_back_witness :
  let m1 := snd (@get_content Model.ports true MoreExamples.hex_upper) in
  @set_content Model.ports (Some (PyBytes (b "jk"))) m1 =
  (Ok tt,
   with_headers [("Content-Encoding", "hex"); ("content-length", "4")] m1)
  /\ raw_content (snd (@set_content Model.ports (Some (PyBytes (b "jk"))) m1))
     = Some (b "6A6B").
Proof.
  split.
  - apply (@content_write_back Model.ports MoreExamples.hex_upper
             (snd (@get_content Model.ports true MoreExamples.hex_upper))
             (b "6A6B") (b "jk")); reflexivity.
  - reflexivity.
Defined.

Lemma decode_unsupported_encoding_witness :
  @decode Model.ports true Examples.bogus_encoded
  = (Raise ValueError, Examples.bogus_encoded)
  /\ exists m',
      @decode Model.ports false Examples.bogus_encoded = (Ok tt, m')
      /\ raw_content m' = Some [xff]
      /\ headers m' = headers_pop "content-encoding" (headers Examples.bogus_encoded)
      /\ headers_get "content-encoding" (headers m') = None.
Proof.
  apply (@decode_unsupported_encoding Model.ports Examples.bogus_encoded [xff] "bogus").
  - apply reach_new.
  - reflexivity.
  - reflexivity.
  - discriminate.
  - exact bogus_unsupported.
Defined.

Lemma content_is_body_without_encoding_witness :
  exists m1,
    @get_content Model.ports true Examples.hello = (Ok (Some (b "hello world")), m1).
Proof.
  apply (@content_is_body_without_encoding Model.ports true Examples.hello).
  - exact model_encodes_identity.
  - apply reach_new.
  - reflexivity.
  - left. reflexivity.
Defined.

Lemma decode_without_encoding_witness :
  exists m',
    @decode Model.ports true Examples.hello = (Ok tt, m')
    /\ raw_content m' = raw_content Examples.hello
    /\ headers m' = headers Examples.hello.
Proof.
  apply (@decode_without_encoding Model.ports true Examples.hello).
  - exact model_encodes_identity.
  - apply reach_new.
  - reflexivity.
Defined.

Lemma decode_then_encode_restores_witness :
  exists m2,
    @encode Model.ports "hex" (snd (@decode Model.ports true MoreExamples.hex_upper))
    = (Ok tt, m2)
    /\ raw_content m2 = Some (b "6A6B")
    /\ headers_get "content-encoding" (headers m2) = Some "hex"
    /\ headers_get "content-length" (headers m2) = Some "4".
Proof.
  apply (@decode_then_encode_restores Model.ports MoreExamples.hex_upper
           (snd (@decode Model.ports true MoreExamples.hex_upper)) (b "6A6B") "hex").
  - exact model_encodes_identity.
  - apply reach_new.
  - reflexivity.
  - reflexivity.
  - reflexivity.
Defined.

Lemma encode_takes_raw_as_content_witness :
  let m' := snd (@encode Model.ports "hex" Examples.hex_encoded) in
  headers_get "content-encoding" (headers m') = Some "hex"
  /\ @get_content Model.ports true m' = (Ok (Some (b "6162")), m')
  /\ exists r,
      raw_content m' = Some r
      /\ headers_get "content-length" (headers m') = Some (str_of_nat (List.length r)).
Proof.
  apply (@encode_takes_raw_as_content Model.ports true Examples.hex_encoded
           (snd (@encode Model.ports "hex" Examples.hex_encoded)) (b "6162") "hex");
    reflexivity.
Defined.


Lemma set_text_then_get_text_witness :
  exists m',
    @set_text Model.ports (Some MoreExamples.hello_text) Examples.bodiless = (Ok tt, m')
    /\ @get_text Model.ports true m' = (Ok (Some MoreExamples.hello_text), m')
    /\ @_guess_encoding Model.ports m' = @_guess_encoding Model.ports Examples.bodiless.
Proof.
  apply (@set_text_then_get_text Model.ports true Examples.bodiless
           MoreExamples.hello_text [x68; xe9; x6c; x6c; x6f]).
  - exact model_encodes_identity.
  - apply reach_new.
  - reflexivity.
Defined.

Lemma text_write_back_witness :
  let m1 := snd (@get_text Model.ports true MoreExamples.hex_upper) in
  @set_text Model.ports (Some [106; 107]%N) m1 =
  (Ok tt,
   with_headers [("Content-Encoding", "hex"); ("content-length", "4")] m1)
  /\ raw_content (snd (@set_text Model.ports (Some [106; 107]%N) m1)) = Some (b "6A6B").
Proof.
  split.
  - apply (@text_write_back Model.ports MoreExamples.hex_upper
             (snd (@get_text Model.ports true MoreExamples.hex_upper))
             (b "6A6B") [106; 107]%N).
    + exact model_encodes_identity.
    + apply reach_new.
    + reflexivity.
    + reflexivity.
  - reflexivity.
Defined.

Lemma lenient_content_agrees_with_strict_witness :
  @get_content Model.ports false Examples.hex_encoded
  = (Ok (Some (b "ab")), snd (@get_content Model.ports true Examples.hex_encoded)).
Proof.
  apply (@lenient_content_agrees_with_strict Model.ports Examples.hex_encoded).
  - exact model_encodes_identity.
  - apply reach_new.
  - reflexivity.
Defined.

Lemma get_text_lenient_returns_witness :
  exists t m', @get_text Model.ports false MoreExamples.json_ff = (Ok t, m').
Proof.
  apply (@get_text_lenient_returns Model.ports MoreExamples.json_ff
           (snd (@get_content Model.ports true MoreExamples.json_ff)) (Some [xff])).
  - exact model_encodes_identity.
  - apply reach_new.
  - reflexivity.
Defined.

(** ** How the methods fail *)

Section Failures.

Context `{P : Ports}.

(** X18: a strict [get_content] raises only when the decoder refuses the
    body.  In any state, if [get_content] raises, the call was strict, the
    exception is [ValueError], the Content-Encoding header is non-empty,
    the decoder fails on the current raw body under that header, and the
    message, caches included, is exactly as before. *)
Theorem get_content_raises_only_undecodable (s : bool) (m m' : Message) (e : exn) :
  get_content s m = (Raise e, m') ->
  s = true /\ e = ValueError /\ m' = m
  /\ exists raw ce,
      raw_content m = Some raw
      /\ headers_get "content-encoding" (headers m) = Some ce
      /\ ce <> ""
      /\ encoding_decode raw ce = None.
Proof.
  unfold get_content. steps.
  destruct (raw_content m) as [raw|]; [|discriminate].
  destruct (negb _); fields; [|discriminate].
  destruct (truthy_str _) eqn:Ht; fields; [|discriminate].
  apply truthy_str_Some in Ht. destruct Ht as (ce & Hce & Hne). rewrite Hce.
  destruct (encoding_decode raw ce) eqn:Hd; fields; [discriminate|].
  destruct s; fields; [|discriminate].
  intros H. inversion H; subst. repeat split. exists raw, ce. auto.
Qed.

(** X19: a write of bytes never fails.  In every state a caller can bring
    about (the identity codec being the identity), [set_content(v)]
    returns, whatever the Content-Encoding header says, and the raw body it
    leaves is an encoding of [v] under the header as it stands afterwards:
    [v] itself when the header is absent, empty or was dropped as invalid. *)
Theorem set_content_always_returns (m : Message) (v : bytes) :
  encodes_identity ->
  reachable m ->
  exists m' r,
    set_content (Some (PyBytes v)) m = (Ok tt, m')
    /\ raw_content m' = Some r
    /\ decodes_to r (headers_get "content-encoding" (headers m')) v.
Proof.
  intros Hid Hr.
  destruct (set_content_returns m v (reachable_ok m Hr) Hid) as [m' Hset].
  destruct (set_content_post m m' v Hset)
    as ((r & Hraw & He & _) & Hd & Hs & Henc & _).
  pose proof (set_content_sound Hid (Some (PyBytes v)) m (reachable_sound Hid m Hr))
    as [Hsound _].
  rewrite Hset in Hsound. simpl in Hsound.
  unfold content_cache_sound in Hsound. rewrite Hs in Hsound.
  destruct Hsound as (raw' & d & He' & Hd' & Hrel).
  exists m', r. split; [exact Hset|]. split; [exact Hraw|].
  rewrite <- Henc.
  assert (raw' = r) by congruence. assert (d = v) by congruence. subst. exact Hrel.
Qed.

(** X20: [set_text] fails only on text that even the tolerant encoder
    refuses.  In every state a caller can bring about, if [set_text(t)]
    raises, the exception is [ValueError], neither the guessed charset nor
    the tolerant UTF-8 encoder could encode [t], and the message is left
    with its Content-Type header already rewritten to charset utf-8, body
    and caches unchanged. *)
Theorem set_text_raises_only_unencodable (m m' : Message) (t : text) (e : exn) :
  encodes_identity ->
  reachable m ->
  set_text (Some t) m = (Raise e, m') ->
  e = ValueError
  /\ encoding_encode_text t (_guess_encoding m) = None
  /\ utf8_encode_tolerant t = None
  /\ m' = with_headers
            (headers_setitem "content-type" (utf8_content_type m) (headers m)) m.
Proof.
  intros Hid Hr.
  pose proof (reachable_ok m Hr) as Hok.
  assert (Hwrite : forall ma (x : option bytes) r mb,
             set_content (option_map PyBytes x) ma = (r, mb) ->
             message_ok ma -> r = Ok tt).
  { intros ma [x|] r mb Hs Hma; cbn [option_map] in Hs.
    - destruct (set_content_returns ma x Hma Hid) as [mb' Hs']. congruence.
    - unfold set_content, modify in Hs. congruence. }
  unfold set_text. unfold bind at 1. unfold gets at 1.
  unfold bind at 1. unfold gets at 1. unfold bind at 1.
  destruct (negb _).
  - destruct (encoding_encode_text t (_guess_encoding m)) as [x|] eqn:Henc.
    + steps.
      destruct (set_content (Some (PyBytes x)) _) as [r mb] eqn:Hs.
      assert (r = Ok tt) by exact (Hwrite _ (Some x) r mb Hs Hok).
      subst r. discriminate.
    + unfold bind at 1. unfold modify at 1.
      destruct (utf8_encode_tolerant t) as [x|] eqn:Htol.
      * steps.
        destruct (set_content (Some (PyBytes x)) _) as [r mb] eqn:Hs.
        assert (r = Ok tt) by exact (Hwrite _ (Some x) r mb Hs Hok).
      subst r. discriminate.
      * steps. intros H. inversion H; subst. auto.
  - steps.
    destruct (set_content (option_map PyBytes (encoded (_text_cache m))) m)
      as [r mb] eqn:Hs.
    rewrite (Hwrite m _ r mb Hs Hok). discriminate.
Qed.

(** X21: [get_text] raises nothing but [ValueError].  This holds for a
    strict call in any state and for a lenient call in every state a
    caller can bring about; either way the raw body and the headers are
    left as they were. *)
Theorem get_text_raises_only_value_error (s : bool) (m m' : Message) (e : exn) :
  s = true \/ (encodes_identity /\ reachable m) ->
  get_text s m = (Raise e, m') ->
  e = ValueError
  /\ raw_content m' = raw_content m
  /\ headers m' = headers m.
Proof.
  intros Hmode Hget.
  destruct (get_text_frame_of s m m' (Raise e) Hget) as [Hr' Hh'].
  split; [|auto].
  revert Hget. unfold get_text. unfold bind at 1. unfold gets at 1.
  destruct (raw_content m) as [raw|] eqn:Hraw; [|discriminate].
  unfold bind at 1. unfold gets at 1. unfold bind at 1.
  destruct (get_content s m) as [[c|x] m1] eqn:Hg.
  2:{ intros H. inversion H; subst.
      destruct (get_content_raise_cases s m m' e Hg) as (-> & _). reflexivity. }
  unfold bind at 1. unfold gets at 1.
  destruct (negb _); [|discriminate].
  unfold bind at 1. unfold bind at 1. unfold gets at 1.
  destruct (decode_text_of c _); [discriminate|].
  destruct s.
  - intros H. inversion H. reflexivity.
  - destruct Hmode as [Hmode | [Hid Hreach]]; [discriminate|].
    pose proof (reachable_sound Hid m Hreach) as Hsound.
    pose proof (get_content_sound false m Hsound) as Hsound1.
    rewrite Hg in Hsound1. simpl in Hsound1.
    destruct (get_content_post false m m1 raw c Hraw Hg) as (Hr1 & _).
    unfold bind at 1.
    destruct (get_content true m1) as [[c2|x] m2] eqn:Hg2.
    + destruct (get_content_some true m1 m2 raw c2 Hsound1 Hr1 Hg2) as (d & _ & -> & _).
      discriminate.
    + intros H. inversion H; subst.
      destruct (get_content_raise_cases true m1 m' e Hg2) as (-> & _). reflexivity.
Qed.

End Failures.

Lemma get_content_raises_only_undecodable_witness :
  true = true /\ ValueError = ValueError
  /\ Examples.bogus_encoded = Examples.bogus_encoded
  /\ exists raw ce,
      raw_content Examples.bogus_encoded = Some raw
      /\ headers_get "content-encoding" (headers Examples.bogus_encoded) = Some ce
      /\ ce <> ""
      /\ @encoding_decode Model.ports raw ce = None.
Proof.
  apply (@get_content_raises_only_undecodable Model.ports true Examples.bogus_encoded).
  reflexivity.
Defined.

Lemma set_content_always_returns_witness :
  exists m' r,
    @set_content Model.ports (Some (PyBytes (b "ab"))) Examples.hex_encoded = (Ok tt, m')
    /\ raw_content m' = Some r
    /\ @decodes_to Model.ports r (headers_get "content-encoding" (headers m')) (b "ab").
Proof.
  apply (@set_content_always_returns Model.ports Examples.hex_encoded (b "ab")).
  - exact model_encodes_identity.
  - apply reach_new.
Defined.

Lemma set_text_raises_only_unencodable_witness :
  ValueError = ValueError
  /\ @encoding_encode_text Model.ports MoreExamples.lone_surrogate
       (@_guess_encoding Model.ports Examples.bodiless) = None
  /\ @utf8_encode_tolerant Model.ports MoreExamples.lone_surrogate = None
  /\ snd (@set_text Model.ports (Some MoreExamples.lone_surrogate) Examples.bodiless)
     = with_headers
         (headers_setitem "content-type"
            (@utf8_content_type Model.ports Examples.bodiless)
            (headers Examples.bodiless))
         Examples.bodiless.
Proof.
  apply (@set_text_raises_only_unencodable Model.ports Examples.bodiless
           (snd (@set_text Model.ports (Some MoreExamples.lone_surrogate) Examples.bodiless))
           MoreExamples.lone_surrogate ValueError).
  - exact model_encodes_identity.
  - apply reach_new.
  - reflexivity.
Defined.

Lemma get_text_raises_only_value_error_witness :
  ValueError = ValueError
  /\ raw_content (snd (@get_text Model.ports false Examples.bogus_encoded_json))
     = raw_content Examples.bogus_encoded_json
  /\ headers (snd (@get_text Model.ports false Examples.bogus_encoded_json))
     = headers Examples.bogus_encoded_json.
Proof.
  apply (@get_text_raises_only_value_error Model.ports false Examples.bogus_encoded_json).
  - right. split; [exact model_encodes_identity | apply reach_new].
  - reflexivity.
Defined.

(** ** The charset guess and the content layer *)

Section GuessStable.

Context `{P : Ports}.

Lemma set_content_keeps_content_type (v : option pyobj) (m : Message) :
  headers_get "content-type" (headers (snd (set_content v m)))
  = headers_get "content-type" (headers m).
Proof.
  unfold set_content, set_content_length. destruct v as [[v|t]|]; steps;
    [|reflexivity|reflexivity].
  destruct (negb _); fields.
  - destruct (encoding_encode v _); fields.
    + apply headers_get_setitem_other. exact lower_ct_cl.
    + destruct (headers_delitem _ _) as [h'|] eqn:Hdel; fields; [|reflexivity].
      rewrite headers_get_setitem_other by exact lower_ct_cl.
      exact (headers_get_delitem_other "content-type" "content-encoding" _ _
               lower_ct_ce Hdel).
  - destruct (encoded (_content_cache m)); fields; [|reflexivity].
    apply headers_get_setitem_other. exact lower_ct_cl.
Qed.

Lemma headers_get_pop_other (n1 n2 : string) (h : Headers) :
  lower n1 <> lower n2 ->
  headers_get n1 (headers_pop n2 h) = headers_get n1 h.
Proof.
  intros Hne. unfold headers_pop.
  destruct (headers_delitem n2 h) as [h'|] eqn:Hdel; [|reflexivity].
  exact (headers_get_delitem_other n1 n2 h h' Hne Hdel).
Qed.

(** X22: the content layer never moves the charset.  [get_content],
    [set_content], [decode] and [encode] leave the Content-Type header, and
    with it the charset that [_guess_encoding] picks, exactly as it was,
    whether they return or raise and whatever they do to Content-Encoding
    and Content-Length. *)
Theorem content_layer_keeps_charset_guess
        (s : bool) (v : option pyobj) (e : string) (m : Message) :
  _guess_encoding (snd (get_content s m)) = _guess_encoding m
  /\ _guess_encoding (snd (set_content v m)) = _guess_encoding m
  /\ _guess_encoding (snd (decode s m)) = _guess_encoding m
  /\ _guess_encoding (snd (encode e m)) = _guess_encoding m.
Proof.
  split; [|split; [|split]].
  - apply guess_of_headers. apply get_content_frame.
  - apply guess_of_content_type. apply set_content_keeps_content_type.
  - apply guess_of_content_type. unfold decode. unfold bind at 1.
    destruct (get_content_frame s m) as (_ & Hh & _).
    destruct (get_content s m) as [[c|x] m1]; simpl in Hh; steps.
    + rewrite Hh. apply headers_get_pop_other. exact lower_ct_ce.
    + rewrite Hh. reflexivity.
  - apply guess_of_content_type. unfold encode. unfold bind at 1. unfold modify at 1.
    set (m0 := with_headers (headers_setitem "content-encoding" e (headers m)) m).
    assert (H0 : headers_get "content-type" (headers m0)
                 = headers_get "content-type" (headers m)).
    { unfold m0. fields. apply headers_get_setitem_other. exact lower_ct_ce. }
    unfold bind at 1. unfold gets at 1. unfold bind at 1.
    pose proof (set_content_keeps_content_type (option_map PyBytes (raw_content m0)) m0)
      as Hset.
    destruct (set_content (option_map PyBytes (raw_content m0)) m0) as [[[]|x] m1];
      simpl in Hset.
    + unfold bind at 1. unfold gets at 1.
      destruct (negb _); steps; rewrite Hset; exact H0.
    + cbn [snd]. rewrite Hset. exact H0.
Qed.

End GuessStable.

(** ** What a write stores, and under which length *)

Section WriteExact.

Context `{P : Ports}.

(** The body a returning [set_content(v)] stores, read off the branch the
    call took: on a cache hit the cached encoded form; otherwise the
    encoder's output under the header (identity when it is absent or
    empty), or [v] itself when the encoder refuses, the header then being
    removed. *)
Lemma set_content_exact (m m' : Message) (v : bytes) :
  set_content (Some (PyBytes v)) m = (Ok tt, m') ->
  exists r,
    raw_content m' = Some r
    /\ if (decoded (_content_cache m) == Some v)
          && (encoding (_content_cache m) == headers_get "content-encoding" (headers m))
          && truthy_flag (strict (_content_cache m))
       then encoded (_content_cache m) = Some r
            /\ headers_get "content-encoding" (headers m')
               = headers_get "content-encoding" (headers m)
       else match encoding_encode v
                    (ce_or_identity (headers_get "content-encoding" (headers m))) with
            | Some x =>
              r = x
              /\ headers_get "content-encoding" (headers m')
                 = headers_get "content-encoding" (headers m)
            | None =>
              r = v /\ headers_get "content-encoding" (headers m') = None
            end.
Proof.
  unfold set_content, set_content_length. steps.
  destruct (_ && _ && _); fields.
  - destruct (encoded (_content_cache m)) as [r|]; [|discriminate].
    intros H. inversion H; subst m'. fields. exists r.
    repeat split. apply headers_get_setitem_other. exact lower_ce_cl.
  - destruct (encoding_encode v _) as [x|]; fields.
    + intros H. inversion H; subst m'. fields. exists x.
      repeat split. apply headers_get_setitem_other. exact lower_ce_cl.
    + destruct (headers_delitem _ _) as [h'|] eqn:Hdel; fields; [|discriminate].
      intros H. inversion H; subst m'. fields. exists v.
      repeat split. rewrite headers_get_setitem_other by exact lower_ce_cl.
      exact (headers_get_delitem _ _ _ Hdel).
Qed.

(** C4 (as amended): after [set_content(b)] returns, Content-Length is the
    length of the raw body, and the raw body is [b] as encoded under the
    Content-Encoding in force.  Exactly: on a cache miss it is the codec's
    encoding of [b] under the header (under identity when the header is
    absent or empty), or [b] itself when the codec refuses, the header then
    being removed; on a cache hit it is the cached encoded form of [b].  In
    every state a caller can bring about (the identity codec being the
    identity) that body is an encoding of [b] under the header as it stands
    afterwards, so that with no Content-Encoding, an empty one or one the
    codec rejects the body is [b] and Content-Length is the length of
    [b]. *)
Theorem set_content_length_of_raw (m m' : Message) (v : bytes) :
  set_content (Some (PyBytes v)) m = (Ok tt, m') ->
  exists r,
    raw_content m' = Some r
    /\ headers_get "content-length" (headers m') = Some (str_of_nat (List.length r))
    /\ (if (decoded (_content_cache m) == Some v)
           && (encoding (_content_cache m) == headers_get "content-encoding" (headers m))
           && truthy_flag (strict (_content_cache m))
        then encoded (_content_cache m) = Some r
             /\ headers_get "content-encoding" (headers m')
                = headers_get "content-encoding" (headers m)
        else match encoding_encode v
                     (ce_or_identity (headers_get "content-encoding" (headers m))) with
             | Some x =>
               r = x
               /\ headers_get "content-encoding" (headers m')
                  = headers_get "content-encoding" (headers m)
             | None =>
               r = v /\ headers_get "content-encoding" (headers m') = None
             end)
    /\ (encodes_identity -> reachable m ->
        decodes_to r (headers_get "content-encoding" (headers m')) v
        /\ (truthy_str (headers_get "content-encoding" (headers m)) = false ->
            r = v
            /\ headers_get "content-length" (headers m')
               = Some (str_of_nat (List.length v)))
        /\ (forall e,
               headers_get "content-encoding" (headers m) = Some e ->
               e <> "" -> unsupported e ->
               r = v
               /\ headers_get "content-encoding" (headers m') = None
               /\ headers_get "content-length" (headers m')
                  = Some (str_of_nat (List.length v)))).
Proof.
  intros H.
  destruct (set_content_exact m m' v H) as (r & Hraw & Hexact).
  destruct (set_content_post m m' v H)
    as ((r' & Hraw' & He & Hlen) & Hd & Hs & Henc & _).
  assert (r' = r) by congruence. subst r'.
  exists r. split; [exact Hraw|]. split; [exact Hlen|]. split; [exact Hexact|].
  intros Hid Hr.
  assert (Hrel : decodes_to r (headers_get "content-encoding" (headers m')) v).
  { pose proof (set_content_sound Hid (Some (PyBytes v)) m (reachable_sound Hid m Hr))
      as [Hsound _].
    rewrite H in Hsound. simpl in Hsound.
    unfold content_cache_sound in Hsound. rewrite Hs in Hsound.
    destruct Hsound as (raw' & d & He' & Hd' & Hrel).
    rewrite <- Henc.
    assert (raw' = r) by congruence. assert (d = v) by congruence. subst. exact Hrel. }
  split; [exact Hrel|]. split.
  - intros Hplain.
    assert (Hafter : truthy_str (headers_get "content-encoding" (headers m')) = false).
    { destruct (_ && _ && _).
      - destruct Hexact as [_ ->]. exact Hplain.
      - destruct (encoding_encode v _).
        + destruct Hexact as [_ ->]. exact Hplain.
        + destruct Hexact as [_ ->]. reflexivity. }
    unfold decodes_to in Hrel. rewrite Hafter in Hrel. subst r. auto.
  - intros e Hce Hne Hu.
    destruct (set_content_recovers m v e (reachable_ok m Hr) Hce Hne Hu)
      as (h' & Hdel & Hset).
    rewrite Hset in H. inversion H; subst m'. clear H. fields.
    simpl in Hraw. inversion Hraw; subst r.
    repeat split.
    + rewrite headers_get_setitem_other by exact lower_ce_cl.
      exact (headers_get_delitem _ _ _ Hdel).
    + apply headers_get_setitem.
Qed.

End WriteExact.

Lemma set_content_length_of_raw_witness :
  exists r,
    raw_content (snd (@set_content Model.ports (Some (PyBytes (b "ab"))) Examples.hex_encoded))
    = Some r
    /\ headers_get "content-length"
         (headers (snd (@set_content Model.ports (Some (PyBytes (b "ab")))
                                     Examples.hex_encoded)))
       = Some (str_of_nat (List.length r))
    /\ r = b "6162".
Proof.
  destruct (@set_content_length_of_raw Model.ports Examples.hex_encoded
              (snd (@set_content Model.ports (Some (PyBytes (b "ab"))) Examples.hex_encoded))
              (b "ab") eq_refl)
    as (r & Hr & Hl & Hexact & _).
  exists r. split; [exact Hr|]. split; [exact Hl|].
  vm_compute in Hexact. destruct Hexact as [-> _]. reflexivity.
Defined.

(** ** The charset fallback of [set_text] *)

Section CharsetFallback.

Context `{P : Ports}.

Lemma params_get_set_same (k v : string) (p : params) :
  params_get k (params_set k v p) = Some v.
Proof.
  induction p as [|[k' v'] p IH]; simpl.
  - rewrite py_eq_refl. reflexivity.
  - destruct (k' == k) eqn:E; simpl; rewrite E; [reflexivity | exact IH].
Qed.

Lemma params_get_set_other (k k0 v : string) (p : params) :
  k0 <> k -> params_get k0 (params_set k v p) = params_get k0 p.
Proof.
  intros Hne. induction p as [|[k' v'] p IH]; simpl.
  - destruct (k == k0) eqn:E; [|reflexivity].
    apply (proj1 (py_eq_true _ _)) in E. congruence.
  - destruct (k' == k) eqn:E; simpl.
    + destruct (k' == k0) eqn:E0; [|reflexivity].
      apply (proj1 (py_eq_true _ _)) in E. apply (proj1 (py_eq_true _ _)) in E0.
      congruence.
    + destruct (k' == k0); [reflexivity | exact IH].
Qed.

(** C8 (as amended): take a reachable message, a text that the guessed
    charset cannot encode and that the text cache does not already hold,
    and suppose the tolerant UTF-8 encoder accepts the text.  Then
    [set_text] returns; the Content-Type header becomes the parsed content
    type, same type, subtype and other parameters, with its charset
    parameter set to utf-8, or text/plain with that one parameter when the
    header was absent or did not parse; the content is the tolerant UTF-8
    encoding of the text.  If moreover that header value parses back with
    charset utf-8, the guessed charset is utf-8 afterwards, and [get_text]
    returns the text: both modes when strict UTF-8 decoding inverts the
    encoding there, the lenient mode also when strict decoding fails and
    tolerant decoding inverts it. *)
Theorem set_text_charset_fallback
        (m : Message) (t : text) (eb : bytes) (ty subty : string) (ps : params) :
  reachable m ->
  encodes_identity ->
  match parse_content_type (headers_get_default "content-type" (headers m)) with
  | Some parsed => parsed
  | None => ("text", "plain", [])
  end = (ty, subty, ps) ->
  encoding_encode_text t (_guess_encoding m) = None ->
  (decoded (_text_cache m) == Some t)
  && (encoding (_text_cache m) == Some (_guess_encoding m))
  && truthy_flag (strict (_text_cache m)) = false ->
  utf8_encode_tolerant t = Some eb ->
  let new_type := assemble_content_type ty subty (params_set "charset" "utf-8" ps) in
  exists m',
    set_text (Some t) m = (Ok tt, m')
    /\ headers_get "content-type" (headers m') = Some new_type
    /\ params_get "charset" (params_set "charset" "utf-8" ps) = Some "utf-8"
    /\ (forall k, k <> "charset" ->
                  params_get k (params_set "charset" "utf-8" ps) = params_get k ps)
    /\ (parse_content_type (headers_get_default "content-type" (headers m)) = None ->
        new_type = assemble_content_type "text" "plain" [("charset", "utf-8")])
    /\ _text_cache m' = mkCachedDecode (Some eb) (Some "utf8") (Some true) (Some t)
    /\ get_content true m' = (Ok (Some eb), m')
    /\ ((exists ty' subty' ps',
            parse_content_type new_type = Some (ty', subty', ps')
            /\ params_get "charset" ps' = Some "utf-8") ->
        _guess_encoding m' = "utf-8"
        /\ (encoding_decode_text eb "utf-8" = Some t ->
            fst (get_text true m') = Ok (Some t)
            /\ fst (get_text false m') = Ok (Some t))
        /\ (encoding_decode_text eb "utf-8" = None ->
            utf8_decode_tolerant eb = t ->
            fst (get_text false m') = Ok (Some t))).
Proof.
  intros Hr Hid Hparts Henc Hmiss Htol new_type.
  assert (Hnew : utf8_content_type m = new_type).
  { unfold utf8_content_type, new_type.
    destruct (parse_content_type (headers_get_default "content-type" (headers m)))
      as [[[ty0 subty0] ps0]|]; inversion Hparts; subst; reflexivity. }
  set (ma := with_text_cache
               (mkCachedDecode (Some eb) (Some "utf8") (Some true) (Some t))
               (with_headers
                  (headers_setitem "content-type" new_type (headers m)) m)).
  assert (Hok : message_ok ma) by exact (reachable_ok m Hr).
  destruct (set_content_returns ma eb Hok Hid) as [m' Hset].
  destruct (set_content_post ma m' eb Hset)
    as ((r & Hraw & _ & _) & _ & _ & _ & Htc & Hother).
  assert (Hct : headers_get "content-type" (headers m') = Some new_type).
  { rewrite (Hother "content-type" lower_ct_ce lower_ct_cl).
    apply headers_get_setitem. }
  assert (Hcontent : forall s, get_content s m' = (Ok (Some eb), m'))
    by (intros s; exact (get_content_after_set s ma m' eb Hset)).
  exists m'.
  split.
  { unfold set_text. steps. rewrite Hmiss. fields. rewrite Henc. steps.
    rewrite Htol. steps. rewrite Hnew. exact Hset. }
  split; [exact Hct|].
  split; [apply params_get_set_same|].
  split; [intros k Hk; apply params_get_set_other; exact Hk|].
  split.
  { intros Hnone. unfold new_type. rewrite Hnone in Hparts.
    inversion Hparts; subst. reflexivity. }
  split; [exact Htc|].
  split; [apply Hcontent|].
  intros (ty' & subty' & ps' & Hback & Hcharset).
  assert (Hguess : _guess_encoding m' = "utf-8")
    by exact (guess_utf8 m' _ ty' subty' ps' Hct Hback Hcharset).
  assert (Hread : forall s,
             get_text s m' =
             ((if negb false
               then
                 is_strict <- gets (fun m0 => strict (_content_cache m0)) ;;
                 match decode_text_of (Some eb) "utf-8" with
                 | Some decoded_text =>
                   modify (with_text_cache
                             (mkCachedDecode (Some eb) (Some "utf-8") is_strict
                                             (Some decoded_text)))
                 | None =>
                   if s then raise ValueError
                   else
                     again <- get_content true ;;
                     match again with
                     | None => raise AttributeError
                     | Some c =>
                       modify (with_text_cache
                                 (mkCachedDecode (Some eb) (Some "utf-8") (Some false)
                                                 (Some (utf8_decode_tolerant c))))
                     end
                 end
               else ret tt) ;;
              gets (fun m0 => decoded (_text_cache m0))) m').
  { intros s. unfold get_text. unfold bind at 1. unfold gets at 1. rewrite Hraw.
    unfold bind at 1. unfold gets at 1. rewrite Hguess.
    unfold bind at 1. rewrite (Hcontent s).
    unfold bind at 1. unfold gets at 1. rewrite Htc. unfold ma. fields.
    rewrite py_eq_refl.
    replace (Some "utf8" == Some "utf-8") with false by reflexivity.
    rewrite andb_false_r. reflexivity. }
  split; [exact Hguess|]. split.
  - intros Hdec. split; rewrite Hread; cbn [negb]; unfold decode_text_of;
      rewrite Hdec; reflexivity.
  - intros Hdec Htolerant. rewrite Hread. cbn [negb]. unfold decode_text_of.
    rewrite Hdec. unfold bind at 1. unfold bind at 1. unfold gets at 1.
    unfold bind at 1. rewrite (Hcontent true). steps. rewrite Htolerant. reflexivity.
Qed.

End CharsetFallback.

(** C8 as stated fails under Python 3.  Latin-1 cannot encode the lone
    surrogate U+D800, and neither can the tolerant UTF-8 encoder: [set_text]
    raises.  And for the escaped byte U+DCFF [set_text] returns, storing the
    byte 0xff, but the strict [get_text] that follows raises, the body not
    being UTF-8. *)
Lemma set_text_charset_fallback_counterexample :
  @encoding_encode_text Model.ports MoreExamples.lone_surrogate
    (@_guess_encoding Model.ports Examples.bodiless) = None
  /\ fst (@set_text Model.ports (Some MoreExamples.lone_surrogate) Examples.bodiless)
     = Raise ValueError
  /\ @encoding_encode_text Model.ports [56575%N]
       (@_guess_encoding Model.ports Examples.bodiless) = None
  /\ fst (@set_text Model.ports (Some [56575%N]) Examples.bodiless) = Ok tt
  /\ raw_content (snd (@set_text Model.ports (Some [56575%N]) Examples.bodiless))
     = Some [xff]
  /\ fst (@get_text Model.ports true
            (snd (@set_text Model.ports (Some [56575%N]) Examples.bodiless)))
     = Raise ValueError.
Proof. repeat split; vm_compute; reflexivity. Qed.

Lemma set_text_charset_fallback_witness :
  exists m',
    @set_text Model.ports (Some Examples.euro_text) Examples.bodiless = (Ok tt, m')
    /\ headers_get "content-type" (headers m') = Some "text/plain; charset=utf-8"
    /\ raw_content m' = Some Examples.euro_bytes
    /\ fst (@get_text Model.ports true m') = Ok (Some Examples.euro_text)
    /\ fst (@get_text Model.ports false m') = Ok (Some Examples.euro_text).
Proof.
  destruct (@set_text_charset_fallback Model.ports Examples.bodiless
              Examples.euro_text Examples.euro_bytes "text" "plain" [])
    as (m' & Hset & Hct & _ & _ & _ & _ & _ & Hread).
  - apply reach_new.
  - exact model_encodes_identity.
  - reflexivity.
  - reflexivity.
  - reflexivity.
  - reflexivity.
  - destruct Hread as (_ & Hstrict & _).
    + exists "text", "plain", [("charset", "utf-8")]. split; reflexivity.
    + destruct (Hstrict eq_refl) as [Ht Hl].
      exists m'. split; [exact Hset|]. split; [exact Hct|].
      split; [|split; [exact Ht | exact Hl]].
      vm_compute in Hset. injection Hset as <-. reflexivity.
Defined.
